(** * xudd.lib.tcp: the TCP [Server] and [Client] actors

    A shallow embedding of [xudd/lib/tcp.py] and the properties of its
    accept loop, correlation table ([Server.requests]), poll loop and
    partial-write loop.

    Modelling conventions.
    - An actor method is a program in a state-and-exception monad over a
      [world]: the actor's attributes together with the sequence of calls it
      has made to its collaborators (the [socket]/[select] modules and the
      hive), oldest first.
    - What a collaborator hands back (the readiness reported by [select], the
      connection returned by [accept], the message id returned by
      [send_message], the bytes returned by [recv], the room the kernel has
      for a [send]) is an input of the program.  Collaborator calls return
      normally; the exceptions of the embedding are those raised by the
      Python code of the module itself and by the deterministic argument
      checks of the calls it makes.
    - A generator ([listen], [connect]) is run for a finite number of
      resumptions: its prologue, then one loop body per resumption, each
      ending at [yield self.wait_on_self()].  An exception ends it.
    - Logging is not modelled. *)

From Stdlib Require Import ZArith Init.Byte Ascii.
From stdpp Require Import base gmap strings list fin_maps.
From Equations Require Import Equations.

#[local] Set Warnings "-clear-no-such-hyp".

Local Open Scope string_scope.
Local Open Scope list_scope.
Local Open Scope Z_scope.

(** ** Python values, exceptions and collaborator calls *)

Module Py.

(** A socket object, identified by its file descriptor ([fileno()]). *)
Definition sock : Type := Z.

(** A peer address, [(host, port)]. *)
Definition addr : Type := string * Z.

(** The values that occur in message bodies.  [VConn s a] is the pair
    [(socket, address)] returned by [socket.accept()]. *)
Inductive value : Type :=
| VNone
| VInt (n : Z)
| VStr (s : string)
| VBytes (b : list byte)
| VConn (s : sock) (a : addr).

Inductive exn : Type :=
| KeyError (key : value)
| TypeError
| ValueError (msg : string)
| RuntimeError (msg : string)
| AttributeError (attr : string)
| IndexError.

(** A message as the actors of this module read it. *)
Record message : Type := Message {
  directive : string;
  body : gmap string value;
  in_reply_to : option string
}.

(** Calls made to the collaborators, with what they returned. *)
Inductive event : Type :=
| EvSocket (s : sock)
| EvSetsockoptReuseaddr (s : sock) (on : Z)
| EvSetblocking (s : sock) (flag : Z)
| EvBind (s : sock) (host port : value)
| EvListen (s : sock) (backlog : Z)
| EvSelect (s : sock) (readable : bool)
| EvAccept (s : sock) (req : sock * addr)
| EvSendMessage (to : value) (directive : string)
    (body : gmap string value) (message_id : string)
| EvSendall (s : sock) (data : list byte)
| EvClose (s : sock)
| EvCreateConnection (host port timeout : value) (s : sock)
| EvPollRegister (s : sock) (mask : Z)
| EvPoll (timeout : value)
| EvRecv (s : sock) (bufsize : Z) (chunk : list byte)
| EvSend (s : sock) (data : list byte) (sent : nat)
| EvWaitOnSelf.

(** The actor's attributes and the calls made so far. *)
Record world (A : Type) : Type := World {
  self : A;
  events : list event
}.
Arguments World {A} _ _.
Arguments self {A} _.
Arguments events {A} _.

(** A statement either completes with a value or raises; the world it
    leaves behind is kept in both cases (mutation is not rolled back). *)
Inductive result (A R : Type) : Type :=
| Return (r : R) (w : world A)
| Raise (e : exn) (w : world A).
Arguments Return {A R} _ _.
Arguments Raise {A R} _ _.

Definition prog (A R : Type) : Type := world A → result A R.

Definition ret {A R} (r : R) : prog A R := λ w, Return r w.

Definition bind {A R R'} (c : prog A R) (k : R → prog A R') : prog A R' :=
  λ w, match c w with
       | Return r w' => k r w'
       | Raise e w' => Raise e w'
       end.

Definition raise {A R} (e : exn) : prog A R := λ w, Raise e w.

Definition call {A} (e : event) : prog A unit :=
  λ w, Return tt (World (self w) (events w ++ [e])).

Definition get {A} : prog A A := λ w, Return (self w) w.

Definition modify {A} (f : A → A) : prog A unit :=
  λ w, Return tt (World (f (self w)) (events w)).

(** [try: c except KeyError: h] *)
Definition try_except_KeyError {A R} (c h : prog A R) : prog A R :=
  λ w, match c w with
       | Raise (KeyError _) w' => h w'
       | r => r
       end.

(** A loop whose body is resumed once per element of [turns]. *)
Fixpoint resume {A T} (loop_body : T → prog A unit) (turns : list T)
  : prog A unit :=
  match turns with
  | [] => ret tt
  | t :: turns' => bind (loop_body t) (λ _, resume loop_body turns')
  end.

(** [for x in xs: loop_body(x)] *)
Fixpoint for_each {A T} (loop_body : T → prog A unit) (xs : list T)
  : prog A unit :=
  match xs with
  | [] => ret tt
  | x :: xs' => bind (loop_body x) (λ _, for_each loop_body xs')
  end.

Definition world_of {A R} (r : result A R) : world A :=
  match r with Return _ w | Raise _ w => w end.

Definition raised {A R} (r : result A R) : option exn :=
  match r with Return _ _ => None | Raise e _ => Some e end.

(** [d[k]] on a dict with string keys *)
Definition getitem {A} (d : gmap string value) (k : string) : prog A value :=
  match d !! k with
  | Some v => ret v
  | None => raise (KeyError (VStr k))
  end.

(** [d[k]] on a dict with integer keys *)
Definition getitem_int {A V} (d : gmap Z V) (k : Z) : prog A V :=
  match d !! k with
  | Some v => ret v
  | None => raise (KeyError (VInt k))
  end.

(** [d.get(k, dflt)] *)
Definition dict_get (d : gmap string value) (k : string) (dflt : value)
  : value :=
  default dflt (d !! k).

(** A value computed without touching the world, or an exception. *)
Definition lift {A R} (x : exn + R) : prog A R :=
  match x with
  | inr r => ret r
  | inl e => raise e
  end.

(** *** [str.format]

    Replacement fields are [{}] (automatic numbering), [{n}] (positional)
    and [{name}] (keyword); [{{] and [}}] are literal braces.  Conversions,
    format specifications and attribute or index access inside a field are
    not modelled: no template of this module uses them. *)

Inductive fmt_state : Type :=
| FmtText                      (* outside any field *)
| FmtOpen                      (* just read "{" *)
| FmtField (name : string)     (* inside a field; [name] so far *)
| FmtClose.                    (* just read "}" outside a field *)

Definition is_digit (c : ascii) : bool :=
  let n := nat_of_ascii c in (48 <=? n)%nat && (n <=? 57)%nat.

Fixpoint all_digits (s : string) : bool :=
  match s with
  | EmptyString => true
  | String c s' => is_digit c && all_digits s'
  end.

Fixpoint decimal (acc : nat) (s : string) : nat :=
  match s with
  | EmptyString => acc
  | String c s' => decimal (10 * acc + (nat_of_ascii c - 48))%nat s'
  end.

Fixpoint assoc (k : string) (kwargs : list (string * string)) : option string :=
  match kwargs with
  | [] => None
  | (k', v) :: rest => if decide (k = k') then Some v else assoc k rest
  end.

(** The text a field is replaced by; [auto] is the next automatic index. *)
Definition fmt_field (name : string) (auto : nat) (args : list string)
    (kwargs : list (string * string)) : exn + (string * nat) :=
  if decide (name = "") then
    match args !! auto with
    | Some v => inr (v, S auto)
    | None => inl IndexError
    end
  else if all_digits name then
    match args !! decimal 0 name with
    | Some v => inr (v, auto)
    | None => inl IndexError
    end
  else
    match assoc name kwargs with
    | Some v => inr (v, auto)
    | None => inl (KeyError (VStr name))
    end.

Fixpoint fmt_go (tmpl : string) (st : fmt_state) (auto : nat) (out : string)
    (args : list string) (kwargs : list (string * string)) : exn + string :=
  match tmpl with
  | EmptyString =>
      match st with
      | FmtText => inr out
      | FmtOpen | FmtField _ =>
          inl (ValueError "Single '{' encountered in format string")
      | FmtClose => inl (ValueError "Single '}' encountered in format string")
      end
  | String c tmpl' =>
      match st with
      | FmtText =>
          if decide (c = "{"%char) then fmt_go tmpl' FmtOpen auto out args kwargs
          else if decide (c = "}"%char) then
            fmt_go tmpl' FmtClose auto out args kwargs
          else fmt_go tmpl' FmtText auto (out +:+ String c "") args kwargs
      | FmtOpen =>
          if decide (c = "{"%char) then
            fmt_go tmpl' FmtText auto (out +:+ "{") args kwargs
          else if decide (c = "}"%char) then
            match fmt_field "" auto args kwargs with
            | inr (v, auto') => fmt_go tmpl' FmtText auto' (out +:+ v) args kwargs
            | inl e => inl e
            end
          else fmt_go tmpl' (FmtField (String c "")) auto out args kwargs
      | FmtField name =>
          if decide (c = "}"%char) then
            match fmt_field name auto args kwargs with
            | inr (v, auto') => fmt_go tmpl' FmtText auto' (out +:+ v) args kwargs
            | inl e => inl e
            end
          else fmt_go tmpl' (FmtField (name +:+ String c "")) auto out args kwargs
      | FmtClose =>
          if decide (c = "}"%char) then
            fmt_go tmpl' FmtText auto (out +:+ "}") args kwargs
          else inl (ValueError "Single '}' encountered in format string")
      end
  end.

(** [tmpl.format( *args, **kwargs)] *)
Definition str_format (tmpl : string) (args : list string)
    (kwargs : list (string * string)) : exn + string :=
  fmt_go tmpl FmtText 0%nat "" args kwargs.

End Py.

Import Py.

#[global] Instance prog_ret {A} : MRet (prog A) := λ R, ret.
#[global] Instance prog_bind {A} : MBind (prog A) := λ R R' k c, bind c k.

(** ** class Server(Actor) *)

Module Server.

(** The bound methods a directive can be routed to.  [Inherited] stands for
    whatever the [Actor] base class routes. *)
Inductive method : Type :=
| Inherited (name : string)
| Listen
| Send
| Close
| Respond.

Record t : Type := Make {
  message_routing : gmap string method;
  requests : gmap string (sock * addr);
  request_handler : value;
  socket : option sock
}.

Definition set_requests (f : gmap string (sock * addr) → gmap string (sock * addr))
    (a : t) : t :=
  Make (message_routing a) (f (requests a)) (request_handler a) (socket a).

Definition set_socket (s : sock) (a : t) : t :=
  Make (message_routing a) (requests a) (request_handler a) (Some s).

(** [Server.__init__]; [base] is the routing table left by
    [Actor.__init__]. *)
Definition __init__ (base : gmap string method) (request_handler : value) : t :=
  Make (<["listen" := Listen]> (<["respond" := Respond]> base))
       ∅ request_handler None.

(** [self.socket] *)
Definition self_socket : prog t sock :=
  a ← get;
  match socket a with
  | Some s => ret s
  | None => raise (AttributeError "socket")
  end.

(** What the environment hands to one iteration of the accept loop: whether
    [select] reports the listening socket readable, the connection
    [accept] would return, and the id the hive gives the outgoing
    message. *)
Record turn : Type := Turn {
  readable : bool;
  req : sock * addr;
  message_id : string
}.

(** Lines 21-30: the prologue of [listen]; [s] is the new socket object. *)
Definition listen_setup (message : Py.message) (s : sock) : prog t unit :=
  let port := dict_get (body message) "port" (VInt 8000) in
  let host := dict_get (body message) "host" (VStr "127.0.0.1") in
  call (EvSocket s) ;;
  modify (set_socket s) ;;
  (s ← self_socket; call (EvSetsockoptReuseaddr s 1)) ;;
  (s ← self_socket; call (EvSetblocking s 0)) ;;
  (s ← self_socket; call (EvBind s host port)) ;;
  (s ← self_socket; call (EvListen s 5)).

(** Lines 33-58: one iteration of [while True], up to and including the
    [yield]. *)
Definition listen_body (t : turn) : prog Server.t unit :=
  s ← self_socket;
  call (EvSelect s (readable t)) ;;
  (if readable t then
     s ← self_socket;
     call (EvAccept s (req t)) ;;
     a ← get;
     call (EvSendMessage (request_handler a) "handle_request"
             {["request" := VConn (req t).1 (req t).2]} (message_id t)) ;;
     modify (set_requests (insert (message_id t) (req t)))
   else ret tt) ;;
  call EvWaitOnSelf.

(** The generator [listen], resumed once per element of [turns]. *)
Definition listen (message : Py.message) (s : sock) (turns : list turn)
  : prog t unit :=
  listen_setup message s ;;
  resume listen_body turns.

(** [sock, bind = self.requests.get(message.in_reply_to)]: [get] yields
    [None] for an absent key, and unpacking [None] raises [TypeError]. *)
Definition lookup_request (message : Py.message) : prog t (sock * addr) :=
  a ← get;
  match in_reply_to message ≫= (requests a !!.) with
  | Some r => ret r
  | None => raise TypeError
  end.

(** [sock.sendall(data)]: a bytes-like argument is required. *)
Definition sock_sendall (s : sock) (data : value) : prog t unit :=
  match data with
  | VBytes b => call (EvSendall s b)
  | _ => raise TypeError
  end.

(** [del self.requests[key]] *)
Definition del_request (key : option string) : prog t unit :=
  a ← get;
  match key with
  | Some k =>
      match requests a !! k with
      | Some _ => modify (set_requests (delete k))
      | None => raise (KeyError (VStr k))
      end
  | None => raise (KeyError VNone)
  end.

Definition send (message : Py.message) : prog t unit :=
  r ← lookup_request message;
  data ← getitem (body message) "response";
  sock_sendall r.1 data.

Definition close (message : Py.message) : prog t unit :=
  r ← lookup_request message;
  call (EvClose r.1).

Definition respond (message : Py.message) : prog t unit :=
  r ← lookup_request message;
  data ← getitem (body message) "response";
  sock_sendall r.1 data ;;
  call (EvClose r.1) ;;
  del_request (in_reply_to message).

End Server.

(** ** class Client(Actor) *)

Module Client.

Inductive method : Type :=
| Inherited (name : string)
| Connect
| Send.

Record t : Type := Make {
  message_routing : gmap string method;
  poll_timout : value;
  chunk_handler : value;
  socket : option sock
}.

Definition set_socket (s : sock) (a : t) : t :=
  Make (message_routing a) (poll_timout a) (chunk_handler a) (Some s).

(** [Client.__init__]; [base] is the routing table left by
    [Actor.__init__].  The defaults are [chunk_handler=None] and
    [poll_timeout=10]. *)
Definition __init__ (base : gmap string method)
    (chunk_handler poll_timeout : value) : t :=
  Make (<["send" := Send]> (<["connect" := Connect]> base))
       poll_timeout chunk_handler None.

(** [self.socket] *)
Definition self_socket : prog t sock :=
  a ← get;
  match socket a with
  | Some s => ret s
  | None => raise (AttributeError "socket")
  end.

Definition POLLIN : Z := 1.
Definition POLLPRI : Z := 2.
Definition POLLERR : Z := 8.
Definition POLLHUP : Z := 16.

(** The string literal of lines 130-131: the backslash joins the two
    lines, and the indentation of the second is part of the string. *)
Definition connect_error_template : string :=
  "{klass}.connect must be called with `host` and"
  +:+ "                             "
  +:+ "`port` arguments in the message body".

(** One [(fd, flag)] pair reported by [poller.poll], with what the
    environment would hand to the calls made while handling it: the bytes
    the kernel holds for the socket and the id the hive gives an outgoing
    message. *)
Record ready : Type := Ready {
  fd : Z;
  flag : Z;
  pending : list byte;
  message_id : string
}.

(** [self.socket.recv(bufsize)]: at most [bufsize] of the pending bytes. *)
Definition sock_recv (s : sock) (bufsize : value) (pending : list byte)
  : prog t (list byte) :=
  match bufsize with
  | VInt n =>
      if decide (0 ≤ n) then
        let chunk := take (Z.to_nat n) pending in
        call (EvRecv s n chunk) ;; mret chunk
      else raise (ValueError "negative buffersize in recv")
  | _ => raise TypeError
  end.

(** Lines 126-152: the prologue of [connect].  [klass] is
    [self.__class__.__name__], [default_timeout] is what
    [socket.getdefaulttimeout()] returns and [s] is the socket object
    [socket.create_connection] returns.  The result is
    [(chunk_size, socket_from_fd)]. *)
Definition connect_setup (message : Py.message) (klass : string)
    (default_timeout : value) (s : sock)
  : prog t (value * gmap Z sock) :=
  hp ← try_except_KeyError
         (host ← getitem (body message) "host";
          port ← getitem (body message) "port";
          mret (host, port))
         (msg ← lift (str_format connect_error_template [klass] []);
          raise (ValueError msg));
  let timeout := dict_get (body message) "timeout" default_timeout in
  let chunk_size := dict_get (body message) "chunk_size" (VInt 1024) in
  call (EvCreateConnection hp.1 hp.2 timeout s) ;;
  modify (set_socket s) ;;
  (s ← self_socket; call (EvSetblocking s 0)) ;;
  let READ_ONLY := Z.lor (Z.lor (Z.lor POLLIN POLLPRI) POLLHUP) POLLERR in
  (s ← self_socket; call (EvPollRegister s READ_ONLY)) ;;
  s ← self_socket;
  mret (chunk_size, ({[ s := s ]} : gmap Z sock)).

(** Lines 158-170: the body of [for fd, flag in events]. *)
Definition handle_event (chunk_size : value) (socket_from_fd : gmap Z sock)
    (e : ready) : prog t unit :=
  sock ← getitem_int socket_from_fd (fd e);
  if decide (Z.land (flag e) (Z.lor POLLIN POLLPRI) ≠ 0) then
    s ← self_socket;
    if decide (sock = s) then
      s ← self_socket;
      chunk ← sock_recv s chunk_size (pending e);
      if decide (chunk = []) then
        raise (RuntimeError "socket connection broken")
      else
        a ← get;
        call (EvSendMessage (chunk_handler a) "handle_chunk"
                {["chunk" := VBytes chunk]} (message_id e))
    else ret tt
  else ret tt.

(** Lines 155-172: one iteration of [while True], up to and including the
    [yield]; [events] is what [poller.poll] returns. *)
Definition connect_body (chunk_size : value) (socket_from_fd : gmap Z sock)
    (events : list ready) : prog t unit :=
  a ← get;
  call (EvPoll (poll_timout a)) ;;
  for_each (handle_event chunk_size socket_from_fd) events ;;
  call EvWaitOnSelf.

(** The generator [connect], resumed once per element of [turns]. *)
Definition connect (message : Py.message) (klass : string)
    (default_timeout : value) (s : sock) (turns : list (list ready))
  : prog t unit :=
  env ← connect_setup message klass default_timeout s;
  resume (connect_body env.1 env.2) turns.

(** [self.socket.send(data)]: the kernel takes as many bytes as it has
    [room] for, and the call returns that count. *)
Definition sock_send (s : sock) (data : list byte) (room : nat)
  : prog t nat :=
  let sent := (room `min` length data)%nat in
  call (EvSend s data sent) ;; mret sent.

(** Lines 182-188: [while total_sent < length].  [room k] is the room the
    kernel has when write number [k] of this call is made. *)
Equations send_loop (out : list byte) (room : nat → nat)
    (k total_sent : nat) (w : world t)
  : result t unit by wf (length out - total_sent)%nat lt :=
  send_loop out room k total_sent w with
      decide (total_sent < length out)%nat := {
    | right _ => Return tt w
    | left _ with
        (s ← self_socket; sock_send s (drop total_sent out) (room k)) w := {
        | Raise e w' => Raise e w'
        | Return sent w' with decide (sent = 0%nat) := {
            | left _ => Raise (RuntimeError "socket connection broken") w'
            | right _ =>
                send_loop out room (S k) (total_sent + sent)%nat w' } } }.
Next Obligation. lia. Qed.

(** [send]: a text string or a tuple has a length but is refused by
    [socket.send]; [None] and integers have no length. *)
Definition send (message : Py.message) (room : nat → nat) : prog t unit :=
  out ← getitem (body message) "message";
  match out with
  | VBytes b => send_loop b room 0 0
  | VStr "" => ret tt
  | VStr _ | VConn _ _ => self_socket ;; raise TypeError
  | VNone | VInt _ => raise TypeError
  end.

End Client.

(** ** Observations on the calls an actor made *)

Module Trace.

(** The connections returned by [accept], in order. *)
Definition accepted (evs : list event) : list (sock * addr) :=
  omap (λ e, match e with EvAccept _ r => Some r | _ => None end) evs.

(** The messages handed to the hive: recipient, directive, body, id. *)
Definition sent_messages (evs : list event)
  : list (value * string * gmap string value * string) :=
  omap (λ e, match e with
             | EvSendMessage to d b i => Some (to, d, b, i)
             | _ => None
             end) evs.

(** How many times the generator yielded. *)
Definition yields (evs : list event) : nat :=
  length (omap (λ e, match e with EvWaitOnSelf => Some tt | _ => None end) evs).

(** A [recv] that returned no bytes. *)
Definition empty_read (e : event) : Prop :=
  match e with EvRecv _ _ [] => True | _ => False end.

(** The bytes the kernel took from one call, and from a run of calls. *)
Definition taken1 (e : event) : list byte :=
  match e with EvSend _ data sent => take sent data | _ => [] end.

Definition taken (evs : list event) : list byte :=
  concat (taken1 <$> evs).

(** The byte counts returned by the [send] calls, summed. *)
Definition sent_count (evs : list event) : nat :=
  sum_list (omap (λ e, match e with EvSend _ _ n => Some n | _ => None end) evs).

(** [writes] is a run of [send] calls on [s]: each is handed what remains
    of [out] after the [total_sent] bytes taken so far, and takes at least
    one byte and no more than it was handed. *)
Fixpoint sends_from (s : sock) (out : list byte) (total_sent : nat)
    (writes : list event) : Prop :=
  match writes with
  | [] => True
  | e :: rest =>
      ∃ sent,
        e = EvSend s (drop total_sent out) sent
        ∧ (0 < sent ≤ length out - total_sent)%nat
        ∧ sends_from s out (total_sent + sent) rest
  end.

(** What a run of the write loop that starts with [total_sent] bytes of
    [out] taken leaves behind, given the calls [writes] it made and the
    exception [exc] it ended with, if any: either it returned, every write
    took something and together they took the rest of [out]; or its last
    write took nothing while bytes remained, and it raised the
    broken-connection error. *)
Definition send_outcome (s : sock) (out : list byte) (total_sent : nat)
    (exc : option exn) (writes : list event) : Prop :=
  (exc = None
   ∧ sends_from s out total_sent writes
   ∧ (total_sent + sent_count writes = length out)%nat
   ∧ taken writes = drop total_sent out)
  ∨ (exc = Some (RuntimeError "socket connection broken")
     ∧ ∃ pre,
         writes = pre ++ [EvSend s (drop (total_sent + sent_count pre) out) 0]
         ∧ sends_from s out total_sent pre
         ∧ (total_sent + sent_count pre < length out)%nat
         ∧ taken pre = take (sent_count pre) (drop total_sent out)).

(** No call in [evs] is a [recv] that returned no bytes. *)
Definition no_empty_read (evs : list event) : Prop :=
  Forall (λ e, ¬ empty_read e) evs.

(** The calls [new] made by a statement that ended with [exc] contain no
    empty read, or exactly one, as the last call, and the statement raised
    the broken-connection error. *)
Definition stops_at_empty_read (new : list event) (exc : option exn) : Prop :=
  no_empty_read new
  ∨ ∃ pre e,
      new = pre ++ [e]
      ∧ no_empty_read pre
      ∧ empty_read e
      ∧ exc = Some (RuntimeError "socket connection broken").

(** A statement all of whose runs obey [stops_at_empty_read]. *)
Definition read_safe {A R} (c : prog A R) : Prop :=
  ∀ w, ∃ new,
    events (world_of (c w)) = events w ++ new
    ∧ stops_at_empty_read new (raised (c w)).

(** The chunks returned by the [recv] calls, in order. *)
Definition reads (evs : list event) : list (list byte) :=
  omap (λ e, match e with EvRecv _ _ chunk => Some chunk | _ => None end) evs.

(** The chunks carried by the "handle_chunk" messages, in order. *)
Definition chunks_forwarded (evs : list event) : list (list byte) :=
  omap (λ e, match e with
             | EvSendMessage _ d b _ =>
                 if decide (d = "handle_chunk") then
                   match b !! "chunk" with
                   | Some (VBytes chunk) => Some chunk
                   | _ => None
                   end
                 else None
             | _ => None
             end) evs.

(** Every [recv] in [evs] asked for [chunk_size] bytes and returned no more
    than that. *)
Definition reads_within (chunk_size : value) (evs : list event) : Prop :=
  Forall (λ e, match e with
               | EvRecv _ n chunk =>
                   chunk_size = VInt n ∧ (length chunk ≤ Z.to_nat n)%nat
               | _ => True
               end) evs.

(** Every non-empty chunk read was forwarded, in order, and nothing else
    was; and every read asked for [chunk_size] bytes and got no more. *)
Definition forwards (chunk_size : value) (new : list event) : Prop :=
  chunks_forwarded new = filter (λ c, c ≠ []) (reads new)
  ∧ reads_within chunk_size new.

(** A call that reads from, writes to or closes a socket. *)
Definition uses_connection (e : event) : Prop :=
  match e with
  | EvSendall _ _ | EvClose _ | EvSend _ _ _ | EvRecv _ _ _ => True
  | _ => False
  end.

(** No call in [new] closes a socket. *)
Definition no_close (new : list event) : Prop :=
  Forall (λ e, match e with EvClose _ => False | _ => True end) new.

(** A statement all of whose runs add calls satisfying [P]. *)
Definition adds {A R} (P : list event → Prop) (c : prog A R) : Prop :=
  ∀ w, ∃ new, events (world_of (c w)) = events w ++ new ∧ P new.

End Trace.

(** ** The Server as the hive drives it

    Between two resumptions of [listen] the hive may deliver messages to the
    other methods.  [Hive.run] is such an interleaving; an operation that
    raises leaves the world as it was when the exception was raised. *)

Module Hive.

Inductive delivery : Type :=
| Respond (message : Py.message)
| Send (message : Py.message)
| Close (message : Py.message)
| Resume (t : Server.turn).

(** What one iteration of the accept loop does, in closed form. *)
Definition after_turn (s : sock) (t : Server.turn) (w : world Server.t)
  : world Server.t :=
  if Server.readable t then
    World (Server.set_requests (insert (Server.message_id t) (Server.req t))
             (self w))
          (events w
           ++ [EvSelect s true;
               EvAccept s (Server.req t);
               EvSendMessage (Server.request_handler (self w)) "handle_request"
                 {["request" := VConn (Server.req t).1 (Server.req t).2]}
                 (Server.message_id t);
               EvWaitOnSelf])
  else
    World (self w) (events w ++ [EvSelect s false; EvWaitOnSelf]).

(** The loop body resumed once per element of [turns]. *)
Definition after_turns (s : sock) (turns : list Server.turn)
    (w : world Server.t) : world Server.t :=
  foldl (λ w t, after_turn s t w) w turns.

(** The iterations in which [select] reported a pending connection. *)
Definition accepting (turns : list Server.turn) : list Server.turn :=
  filter (λ t, Server.readable t = true) turns.

(** The message [listen] sends for the connection of turn [t]. *)
Definition handle_request (handler : value) (t : Server.turn)
  : value * string * gmap string value * string :=
  (handler, "handle_request",
   {["request" := VConn (Server.req t).1 (Server.req t).2]},
   Server.message_id t).

Definition handle (d : delivery) : prog Server.t unit :=
  match d with
  | Respond m => Server.respond m
  | Send m => Server.send m
  | Close m => Server.close m
  | Resume t => Server.listen_body t
  end.

Definition run (ds : list delivery) (w : world Server.t) : world Server.t :=
  foldl (λ w d, world_of (handle d w)) w ds.

(** No resumption in [ds] registers a connection under [id]. *)
Definition never_issues (id : string) (ds : list delivery) : Prop :=
  Forall (λ d, match d with
               | Resume t => Server.readable t = true → Server.message_id t ≠ id
               | _ => True
               end) ds.

(** No delivery in [ds] responds to [id] or registers a connection under
    it. *)
Definition leaves_alone (id : string) (ds : list delivery) : Prop :=
  Forall (λ d, match d with
               | Respond m => in_reply_to m ≠ Some id
               | Resume t => Server.readable t = true → Server.message_id t ≠ id
               | _ => True
               end) ds.

(** The accepting iterations that were issued the id [id]. *)
Definition issued (id : string) (turns : list Server.turn)
  : list Server.turn :=
  filter (λ t, Server.message_id t = id) (accepting turns).

End Hive.

(** ** Sample inputs *)

Module Sample.

Definition peer1 : sock * addr := (7, ("10.0.0.1", 5000)).
Definition peer2 : sock * addr := (8, ("10.0.0.2", 5001)).

(** [b"OK"] and [b"hello"] *)
Definition OK : list byte := [x4f; x4b]%byte.
Definition hello : list byte := [x68; x65; x6c; x6c; x6f]%byte.

(** A Server just constructed, the base class routing nothing. *)
Definition server0 : world Server.t :=
  World (Server.__init__ ∅ (VStr "handler")) [].

(** A listening Server holding one connection under "id1". *)
Definition serving : world Server.t :=
  World (Server.Make (Server.message_routing (self server0))
           {["id1" := peer1]} (VStr "handler") (Some 3))
        [].

Definition listen_message : Py.message := Message "listen" ∅ None.

(** Three iterations of the accept loop: a connection, nothing, a
    connection. *)
Definition turns : list Server.turn :=
  [Server.Turn true peer1 "id1";
   Server.Turn false peer2 "unused";
   Server.Turn true peer2 "id2"].

Definition reply (directive id : string) (data : list byte) : Py.message :=
  Message directive {["response" := VBytes data]} (Some id).

Definition client0 : world Client.t :=
  World (Client.__init__ ∅ (VStr "chunks") (VInt 10)) [].

(** A Client whose socket attribute is set. *)
Definition connected : world Client.t :=
  World (Client.set_socket 4 (self client0)) [].

Definition connect_message : Py.message :=
  Message "connect" {["host" := VStr "example.org"; "port" := VInt 80]} None.

Definition connect_without_port : Py.message :=
  Message "connect" {["host" := VStr "example.org"]} None.

(** Three iterations of the poll loop: five bytes arrive; the peer closes,
    with a further event reported in the same poll; nothing. *)
Definition polled : list (list Client.ready) :=
  [[Client.Ready 4 Client.POLLIN hello "m1"];
   [Client.Ready 4 Client.POLLIN [] "m2"; Client.Ready 4 Client.POLLIN OK "m3"];
   []].

(** The calls of [connect] on [connect_message] and [polled] that come
    before the empty read. *)
Definition before_empty_read : list event :=
  [EvCreateConnection (VStr "example.org") (VInt 80) VNone 4;
   EvSetblocking 4 0;
   EvPollRegister 4 27;
   EvPoll (VInt 10);
   EvRecv 4 1024 hello;
   EvSendMessage (VStr "chunks") "handle_chunk" {["chunk" := VBytes hello]} "m1";
   EvWaitOnSelf;
   EvPoll (VInt 10)].

Definition send_message (field : string) (data : list byte) : Py.message :=
  Message "send" {[field := VBytes data]} None.

(** The kernel has room for two bytes, then one, then plenty. *)
Definition room (k : nat) : nat :=
  match k with
  | 0 => 2
  | 1 => 1
  | _ => 10
  end%nat.

(** The kernel never has room. *)
Definition no_room (k : nat) : nat := 0%nat.

(** A listening Server holding two connections. *)
Definition serving_two : world Server.t :=
  World (Server.Make (Server.message_routing (self server0))
           {["id1" := peer1; "id2" := peer2]} (VStr "handler") (Some 3))
        [].

(** Two iterations in which the hive hands out the same id twice. *)
Definition turns_same_id : list Server.turn :=
  [Server.Turn true peer1 "id1"; Server.Turn true peer2 "id1"].

(** Two iterations of the poll loop that report a hangup and an error but no
    input. *)
Definition polled_hangup : list (list Client.ready) :=
  [[Client.Ready 4 Client.POLLHUP [] "m1"];
   [Client.Ready 4 Client.POLLERR [] "m2"; Client.Ready 4 Client.POLLHUP [] "m3"]].

Definition connect_chunk_size_0 : Py.message :=
  Message "connect"
    {["host" := VStr "example.org"; "port" := VInt 80; "chunk_size" := VInt 0]}
    None.

(** The kernel always has room for three bytes. *)
Definition room3 (k : nat) : nat := 3%nat.

End Sample.

(** * Properties *)

(** Unfolds the monad operations so that a program applied to a world
    reduces as far as its inputs allow. *)
Ltac py_unfold :=
  unfold mbind, mret, prog_bind, prog_ret, bind, ret, raise, get, call,
    modify, lift, getitem, getitem_int in *.
Ltac py_run := repeat (py_unfold; cbn).

(** ** Server: lookup, send, close, respond *)

Section ServerOps.

Implicit Types (w : world Server.t) (message : Py.message).

Lemma lookup_request_present w message id r :
  in_reply_to message = Some id →
  Server.requests (self w) !! id = Some r →
  Server.lookup_request message w = Return r w.
Proof.
  intros Hid Hr. unfold Server.lookup_request. py_run.
  rewrite Hid. cbn. by rewrite Hr.
Qed.

Lemma lookup_request_absent w message :
  in_reply_to message ≫= (Server.requests (self w) !!.) = None →
  Server.lookup_request message w = Raise TypeError w.
Proof.
  intros Hno. unfold Server.lookup_request. py_run. by rewrite Hno.
Qed.

Lemma send_present w message id r bs :
  in_reply_to message = Some id →
  Server.requests (self w) !! id = Some r →
  body message !! "response" = Some (VBytes bs) →
  Server.send message w
  = Return tt (World (self w) (events w ++ [EvSendall r.1 bs])).
Proof.
  intros Hid Hr Hb. unfold Server.send. py_unfold.
  rewrite (lookup_request_present _ _ _ _ Hid Hr), Hb. by py_run.
Qed.

Lemma close_present w message id r :
  in_reply_to message = Some id →
  Server.requests (self w) !! id = Some r →
  Server.close message w
  = Return tt (World (self w) (events w ++ [EvClose r.1])).
Proof.
  intros Hid Hr. unfold Server.close. py_unfold.
  by rewrite (lookup_request_present _ _ _ _ Hid Hr).
Qed.

Lemma respond_present w message id r bs :
  in_reply_to message = Some id →
  Server.requests (self w) !! id = Some r →
  body message !! "response" = Some (VBytes bs) →
  Server.respond message w
  = Return tt (World (Server.set_requests (delete id) (self w))
                     (events w ++ [EvSendall r.1 bs; EvClose r.1])).
Proof.
  intros Hid Hr Hb. unfold Server.respond. py_unfold.
  rewrite (lookup_request_present _ _ _ _ Hid Hr), Hb.
  unfold Server.del_request. py_run. rewrite Hid, Hr.
  by rewrite <- app_assoc.
Qed.

Lemma ops_absent w message :
  in_reply_to message ≫= (Server.requests (self w) !!.) = None →
  Server.respond message w = Raise TypeError w
  ∧ Server.send message w = Raise TypeError w
  ∧ Server.close message w = Raise TypeError w.
Proof.
  intros Hno. unfold Server.respond, Server.send, Server.close. py_unfold.
  by rewrite (lookup_request_absent _ _ Hno).
Qed.

End ServerOps.

(** ** Server: the correlation table under an interleaving *)

Section ServerTable.

Implicit Types (w : world Server.t) (message : Py.message).

(** [send] and [close] never change the actor's attributes, whether they
    return or raise. *)
Lemma send_self w message : self (world_of (Server.send message w)) = self w.
Proof.
  unfold Server.send, Server.lookup_request, Server.sock_sendall. py_run.
  destruct (in_reply_to message) as [k|]; py_run; [|done].
  destruct (Server.requests (self w) !! k) as [r|]; py_run; [|done].
  destruct (body message !! "response") as [[]|]; by py_run.
Qed.

Lemma close_self w message : self (world_of (Server.close message w)) = self w.
Proof.
  unfold Server.close, Server.lookup_request. py_run.
  destruct (in_reply_to message) as [k|]; py_run; [|done].
  destruct (Server.requests (self w) !! k) as [r|]; by py_run.
Qed.

(** [respond] changes at most the entry of the id it replies to. *)
Lemma respond_requests w message id :
  Server.requests (self w) !! id = None →
  Server.requests (self (world_of (Server.respond message w))) !! id = None.
Proof.
  intros Hno.
  unfold Server.respond, Server.lookup_request, Server.sock_sendall,
    Server.del_request.
  py_run.
  destruct (in_reply_to message) as [k|]; py_run; [|done].
  destruct (Server.requests (self w) !! k) as [r|] eqn:Hk; py_run; [|done].
  destruct (body message !! "response") as [[]|]; py_run; try done.
  rewrite Hk. cbn.
  destruct (decide (k = id)) as [->|]; [apply lookup_delete_eq|].
  by rewrite lookup_delete_ne.
Qed.

Lemma listen_body_run w t s :
  Server.socket (self w) = Some s →
  Server.listen_body t w = Return tt (Hive.after_turn s t w).
Proof.
  intros Hs. unfold Server.listen_body, Server.self_socket, Hive.after_turn.
  py_run. rewrite Hs.
  destruct (Server.readable t); py_run; [rewrite Hs; cbn|];
    by rewrite <- ?app_assoc.
Qed.

Lemma listen_body_unbound w t :
  Server.socket (self w) = None →
  Server.listen_body t w = Raise (AttributeError "socket") w.
Proof.
  intros Hs. unfold Server.listen_body, Server.self_socket.
  py_run. by rewrite Hs.
Qed.

Lemma listen_body_requests w t id :
  Server.requests (self w) !! id = None →
  (Server.readable t = true → Server.message_id t ≠ id) →
  Server.requests (self (world_of (Server.listen_body t w))) !! id = None.
Proof.
  intros Hno Hne. destruct (Server.socket (self w)) as [s|] eqn:Hs.
  - rewrite (listen_body_run _ _ _ Hs). unfold Hive.after_turn.
    destruct (Server.readable t); cbn; [|done].
    rewrite lookup_insert_ne; auto.
  - by rewrite (listen_body_unbound _ _ Hs).
Qed.

Lemma run_absent ds : ∀ w id,
  Server.requests (self w) !! id = None →
  Hive.never_issues id ds →
  Server.requests (self (Hive.run ds w)) !! id = None.
Proof.
  induction ds as [|d ds IH]; intros w id Hno Hds; [done|].
  apply Forall_cons in Hds as [Hd Hds]. cbn.
  apply IH; [|done].
  destruct d; cbn.
  - by apply respond_requests.
  - by rewrite send_self.
  - by rewrite close_self.
  - by apply listen_body_requests.
Qed.

End ServerTable.

(** ** Claims about respond, send and close *)

(** C2.  For an id present in the table, [respond] writes the whole response
    to that connection's socket with [sendall], closes the socket and removes
    the entry.  After that, and after any further deliveries to the Server
    that do not register a new connection under the same id, [respond],
    [send] and [close] on that id all fail at the lookup (the [TypeError] of
    unpacking the [None] that [requests.get] returns, the failure the
    specification calls UnknownCorrelation) and leave the world untouched. *)
Theorem respond_then_unknown (w : world Server.t) (message : Py.message)
    (id : string) (r : sock * addr) (bs : list byte) :
  in_reply_to message = Some id →
  Server.requests (self w) !! id = Some r →
  body message !! "response" = Some (VBytes bs) →
  ∃ w',
    Server.respond message w = Return tt w'
    ∧ events w' = events w ++ [EvSendall r.1 bs; EvClose r.1]
    ∧ Server.requests (self w') = delete id (Server.requests (self w))
    ∧ ∀ ds later,
        Hive.never_issues id ds →
        in_reply_to later = Some id →
        let w'' := Hive.run ds w' in
        Server.respond later w'' = Raise TypeError w''
        ∧ Server.send later w'' = Raise TypeError w''
        ∧ Server.close later w'' = Raise TypeError w''.
Proof.
  intros Hid Hr Hb. eexists. split; [by eapply respond_present|].
  split; [done|]. split; [done|].
  intros ds later Hds Hlater w''. apply ops_absent.
  rewrite Hlater. cbn. apply run_absent; [|done].
  cbn. apply lookup_delete_eq.
Qed.

(** C6.  For an id present in the table, [send] performs the lookup and the
    [sendall] of [respond] and nothing else: the socket is not closed and
    the actor's attributes, the table included, are unchanged.  A following
    [respond] on the same id therefore succeeds, writes, closes and removes
    the entry. *)
Theorem send_then_respond (w : world Server.t) (m1 m2 : Py.message)
    (id : string) (r : sock * addr) (bs1 bs2 : list byte) :
  in_reply_to m1 = Some id →
  in_reply_to m2 = Some id →
  Server.requests (self w) !! id = Some r →
  body m1 !! "response" = Some (VBytes bs1) →
  body m2 !! "response" = Some (VBytes bs2) →
  ∃ w1 w2,
    Server.send m1 w = Return tt w1
    ∧ events w1 = events w ++ [EvSendall r.1 bs1]
    ∧ self w1 = self w
    ∧ Server.respond m2 w1 = Return tt w2
    ∧ events w2 = events w1 ++ [EvSendall r.1 bs2; EvClose r.1]
    ∧ Server.requests (self w2) !! id = None
    ∧ Server.requests (self w2) = delete id (Server.requests (self w)).
Proof.
  intros H1 H2 Hr Hb1 Hb2. do 2 eexists.
  split; [by eapply send_present|].
  split; [done|]. split; [done|].
  split; [by eapply respond_present|].
  split; [done|]. split; [apply lookup_delete_eq | done].
Qed.

(** C7.  For an id present in the table, [close] closes that connection's
    socket and does nothing else: nothing is written, and the actor's
    attributes are unchanged, so the table entry stays in place. *)
Theorem close_keeps_entry (w : world Server.t) (message : Py.message)
    (id : string) (r : sock * addr) :
  in_reply_to message = Some id →
  Server.requests (self w) !! id = Some r →
  ∃ w',
    Server.close message w = Return tt w'
    ∧ events w' = events w ++ [EvClose r.1]
    ∧ self w' = self w
    ∧ Server.requests (self w') !! id = Some r.
Proof.
  intros Hid Hr. eexists. split; [by eapply close_present|]. done.
Qed.

(** C10.  With a correlation id absent from the table (or no [in_reply_to]
    at all), [respond], [send] and [close] raise at the lookup and leave the
    world exactly as it was: no call on any socket, and the same table. *)
Theorem absent_id_fails_first (w : world Server.t) (message : Py.message) :
  in_reply_to message ≫= (Server.requests (self w) !!.) = None →
  Server.respond message w = Raise TypeError w
  ∧ Server.send message w = Raise TypeError w
  ∧ Server.close message w = Raise TypeError w.
Proof. apply ops_absent. Qed.

(** ** Server: the accept loop *)

Section AcceptLoop.

Implicit Types (w : world Server.t) (turns : list Server.turn).

Lemma after_turn_socket s t w :
  Server.socket (self (Hive.after_turn s t w)) = Server.socket (self w).
Proof. unfold Hive.after_turn. by destruct (Server.readable t). Qed.

Lemma after_turn_handler s t w :
  Server.request_handler (self (Hive.after_turn s t w))
  = Server.request_handler (self w).
Proof. unfold Hive.after_turn. by destruct (Server.readable t). Qed.

Lemma resume_listen_body s turns : ∀ w,
  Server.socket (self w) = Some s →
  resume Server.listen_body turns w = Return tt (Hive.after_turns s turns w).
Proof.
  induction turns as [|t turns IH]; intros w Hs; [done|].
  cbn. py_unfold. rewrite (listen_body_run _ _ _ Hs).
  apply IH. by rewrite after_turn_socket.
Qed.

Lemma accepting_cons t turns :
  Hive.accepting (t :: turns)
  = if Server.readable t then t :: Hive.accepting turns
    else Hive.accepting turns.
Proof.
  unfold Hive.accepting. destruct (Server.readable t) eqn:Hr.
  - by rewrite filter_cons_True.
  - rewrite filter_cons_False; [done|]. by rewrite Hr.
Qed.

(** The calls made by the loop: one [accept] and one message per accepting
    iteration, one [yield] per iteration. *)
Lemma after_turns_events s turns : ∀ w,
  Trace.accepted (events (Hive.after_turns s turns w))
  = Trace.accepted (events w) ++ (Server.req <$> Hive.accepting turns)
  ∧ Trace.sent_messages (events (Hive.after_turns s turns w))
    = Trace.sent_messages (events w)
      ++ (Hive.handle_request (Server.request_handler (self w))
            <$> Hive.accepting turns)
  ∧ Trace.yields (events (Hive.after_turns s turns w))
    = (Trace.yields (events w) + length turns)%nat.
Proof.
  induction turns as [|t turns IH]; intros w.
  { cbn. rewrite !app_nil_r. split_and!; [done..|lia]. }
  destruct (IH (Hive.after_turn s t w)) as (Ha & Hm & Hy).
  change (Hive.after_turns s (t :: turns) w)
    with (Hive.after_turns s turns (Hive.after_turn s t w)).
  rewrite Ha, Hm, Hy, after_turn_handler, accepting_cons.
  unfold Hive.after_turn, Trace.accepted, Trace.sent_messages, Trace.yields.
  destruct (Server.readable t); cbn; rewrite !omap_app; cbn;
    rewrite ?app_nil_r, <- ?app_assoc, ?length_app; cbn;
    split_and!; try done; lia.
Qed.

(** The table after the loop, when the ids the hive issued are pairwise
    distinct and not yet in the table. *)
Lemma after_turns_requests s turns : ∀ w,
  NoDup (Server.message_id <$> Hive.accepting turns) →
  Forall (λ t, Server.requests (self w) !! Server.message_id t = None)
    (Hive.accepting turns) →
  let table := Server.requests (self (Hive.after_turns s turns w)) in
  size table = (size (Server.requests (self w))
                + length (Hive.accepting turns))%nat
  ∧ dom table
    = dom (Server.requests (self w))
      ∪ list_to_set (Server.message_id <$> Hive.accepting turns)
  ∧ Forall (λ t, table !! Server.message_id t = Some (Server.req t))
      (Hive.accepting turns)
  ∧ ∀ id, id ∉ Server.message_id <$> Hive.accepting turns →
          table !! id = Server.requests (self w) !! id.
Proof.
  induction turns as [|t turns IH]; intros w Hnd Hfresh.
  { cbn. split_and!; [lia|set_solver|done|done]. }
  change (Hive.after_turns s (t :: turns) w)
    with (Hive.after_turns s turns (Hive.after_turn s t w)).
  rewrite accepting_cons in *.
  destruct (Server.readable t) eqn:Hr.
  - rewrite fmap_cons in Hnd. apply NoDup_cons in Hnd as [Hnotin Hnd].
    apply Forall_cons in Hfresh as [Hfresh_t Hfresh].
    assert (Hw1 : Server.requests (self (Hive.after_turn s t w))
                  = <[Server.message_id t := Server.req t]>
                      (Server.requests (self w))).
    { unfold Hive.after_turn. by rewrite Hr. }
    destruct (IH (Hive.after_turn s t w)) as (Hsz & Hdom & Hall & Hother);
      [done| |].
    { rewrite Hw1. apply Forall_forall. intros t' Ht'.
      rewrite lookup_insert_ne.
      - by eapply Forall_forall in Hfresh.
      - intros Heq. apply Hnotin. rewrite Heq.
        by apply list_elem_of_fmap_2. }
    cbn zeta. rewrite Hsz, Hdom, Hw1.
    rewrite map_size_insert_None by done.
    split_and!.
    + cbn. lia.
    + rewrite dom_insert_L. cbn. set_solver.
    + apply Forall_cons. split; [|done].
      rewrite Hother, Hw1 by done. apply lookup_insert_eq.
    + intros id Hid. rewrite fmap_cons in Hid.
      apply not_elem_of_cons in Hid as [Hne Hid].
      rewrite Hother, Hw1 by done. by rewrite lookup_insert_ne.
  - assert (Hw1 : self (Hive.after_turn s t w) = self w).
    { unfold Hive.after_turn. by rewrite Hr. }
    specialize (IH (Hive.after_turn s t w)). rewrite Hw1 in IH.
    by apply IH.
Qed.

(** The prologue of [listen], in closed form. *)
Lemma listen_setup_run w message s :
  Server.listen_setup message s w
  = Return tt
      (World (Server.set_socket s (self w))
         (events w
          ++ [EvSocket s; EvSetsockoptReuseaddr s 1; EvSetblocking s 0;
              EvBind s (default (VStr "127.0.0.1") (body message !! "host"))
                       (default (VInt 8000) (body message !! "port"));
              EvListen s 5])).
Proof.
  unfold Server.listen_setup, Server.self_socket, dict_get. py_run.
  by rewrite <- !app_assoc.
Qed.

Lemma listen_run w message s turns :
  Server.listen message s turns w
  = Return tt
      (Hive.after_turns s turns
         (world_of (Server.listen_setup message s w))).
Proof.
  unfold Server.listen. py_unfold. rewrite listen_setup_run. cbn.
  by apply resume_listen_body.
Qed.

End AcceptLoop.

(** The scenario of one connection: accepted, announced to the handler,
    answered with [b"OK"], closed; a second [respond] fails. *)
Example one_connection_scenario :
  let w1 := world_of (Server.listen
                        (Message "listen"
                           {["host" := VStr "127.0.0.1"; "port" := VInt 9000]}
                           None)
                        3 [Server.Turn true Sample.peer1 "id1"] Sample.server0) in
  let w2 := world_of (Server.respond (Sample.reply "respond" "id1" Sample.OK) w1) in
  events w2
  = [EvSocket 3; EvSetsockoptReuseaddr 3 1; EvSetblocking 3 0;
     EvBind 3 (VStr "127.0.0.1") (VInt 9000); EvListen 3 5;
     EvSelect 3 true; EvAccept 3 Sample.peer1;
     EvSendMessage (VStr "handler") "handle_request"
       {["request" := VConn 7 ("10.0.0.1", 5000)]} "id1";
     EvWaitOnSelf;
     EvSendall 7 Sample.OK; EvClose 7]
  ∧ Server.requests (self w2) = ∅
  ∧ Server.respond (Sample.reply "respond" "id1" Sample.OK) w2
    = Raise TypeError w2.
Proof. by vm_compute. Qed.

(** ** Claims about listen *)

(** C1.  Run [listen] on a fresh Server for any number of iterations, and
    let the accepting iterations be those in which [select] reported a
    pending connection; say there are N of them.  Provided the ids the hive
    returned for the N messages are pairwise distinct, the loop made exactly
    N [accept] calls, at most one per iteration, sent exactly N messages,
    all to the configured handler and each carrying the connection just
    accepted, and the table then has exactly N entries: one per id, each
    holding its connection.  (The directive of these messages is
    "handle_request".) *)
Theorem accept_loop_counts (base : gmap string Server.method)
    (handler : value) (message : Py.message) (s : sock)
    (turns : list Server.turn) :
  NoDup (Server.message_id <$> Hive.accepting turns) →
  ∃ w',
    Server.listen message s turns (World (Server.__init__ base handler) [])
    = Return tt w'
    ∧ Trace.accepted (events w') = Server.req <$> Hive.accepting turns
    ∧ Trace.sent_messages (events w')
      = Hive.handle_request handler <$> Hive.accepting turns
    ∧ Trace.yields (events w') = length turns
    ∧ (∀ t w, length (Trace.accepted (events (world_of (Server.listen_body t w))))
              ≤ S (length (Trace.accepted (events w))))%nat
    ∧ size (Server.requests (self w')) = length (Hive.accepting turns)
    ∧ dom (Server.requests (self w'))
      = list_to_set (Server.message_id <$> Hive.accepting turns)
    ∧ Forall (λ t, Server.requests (self w') !! Server.message_id t
                   = Some (Server.req t))
        (Hive.accepting turns).
Proof.
  intros Hnd. eexists. split; [apply listen_run|].
  rewrite listen_setup_run. cbn [world_of].
  set (w1 := World _ _).
  destruct (after_turns_events s turns w1) as (Ha & Hm & Hy).
  destruct (after_turns_requests s turns w1 Hnd) as (Hsz & Hdom & Hall & _).
  { apply Forall_forall. intros t _. apply lookup_empty. }
  split_and!.
  - by rewrite Ha.
  - by rewrite Hm.
  - by rewrite Hy.
  - intros t w. destruct (Server.socket (self w)) as [s'|] eqn:Hs.
    + rewrite (listen_body_run _ _ _ Hs). unfold Hive.after_turn, Trace.accepted.
      destruct (Server.readable t); cbn; rewrite omap_app, length_app; cbn; lia.
    + rewrite (listen_body_unbound _ _ Hs). cbn. lia.
  - rewrite Hsz. cbn. by rewrite map_size_empty.
  - rewrite Hdom. cbn. by rewrite dom_empty_L, (left_id_L ∅ (∪)).
  - done.
Qed.

(** C9.  [listen] reads host and port with [body.get] and a default, so a
    body without them is not an error: the socket is bound to the host given,
    else "127.0.0.1", and to the port given, else 8000, then put in listening
    state with a backlog of 5; the generator then runs its loop without
    raising, however many times it is resumed. *)
Theorem listen_defaults (w : world Server.t) (message : Py.message)
    (s : sock) (turns : list Server.turn) :
  Server.listen_setup message s w
  = Return tt
      (World (Server.set_socket s (self w))
         (events w
          ++ [EvSocket s; EvSetsockoptReuseaddr s 1; EvSetblocking s 0;
              EvBind s
                (match body message !! "host" with
                 | Some host => host
                 | None => VStr "127.0.0.1"
                 end)
                (match body message !! "port" with
                 | Some port => port
                 | None => VInt 8000
                 end);
              EvListen s 5]))
  ∧ raised (Server.listen message s turns w) = None.
Proof.
  split; [apply listen_setup_run|]. by rewrite listen_run.
Qed.

(** [listen] with an empty body binds 127.0.0.1:8000. *)
Example listen_empty_body :
  events (world_of (Server.listen_setup (Message "listen" ∅ None) 3
                      (World (Server.__init__ ∅ VNone) [])))
  = [EvSocket 3; EvSetsockoptReuseaddr 3 1; EvSetblocking 3 0;
     EvBind 3 (VStr "127.0.0.1") (VInt 8000); EvListen 3 5].
Proof. reflexivity. Qed.

(** ** Client: the partial-write loop of send *)

Section ClientSend.

Implicit Types (w : world Client.t) (out : list byte).

Lemma send_outcome_cons s out total_sent sent exc writes :
  (0 < sent ≤ length out - total_sent)%nat →
  Trace.send_outcome s out (total_sent + sent) exc writes →
  Trace.send_outcome s out total_sent exc (EvSend s (drop total_sent out) sent :: writes).
Proof.
  unfold Trace.send_outcome.
  intros Hsent [(-> & Hfrom & Hcount & Htaken)
               |(-> & pre & -> & Hfrom & Hcount & Htaken)]; [left|right].
  - split_and!; [done|by exists sent| |].
    + unfold Trace.sent_count in *. cbn. lia.
    + unfold Trace.taken in *. cbn. rewrite Htaken.
      rewrite <- (drop_drop out sent total_sent). apply take_drop.
  - split; [done|].
    exists (EvSend s (drop total_sent out) sent :: pre).
    assert (Hsum : Trace.sent_count (EvSend s (drop total_sent out) sent :: pre)
                   = (sent + Trace.sent_count pre)%nat) by done.
    rewrite Hsum. split_and!.
    + cbn. by rewrite Nat.add_assoc.
    + by exists sent.
    + lia.
    + unfold Trace.taken in *. cbn. rewrite Htaken.
      rewrite <- (drop_drop out sent total_sent). apply take_take_drop.
Qed.

Lemma send_write_run w s data room :
  Client.socket (self w) = Some s →
  (s ← Client.self_socket; Client.sock_send s data room) w
  = Return (room `min` length data)%nat
      (World (self w) (events w ++ [EvSend s data (room `min` length data)%nat])).
Proof.
  intros Hs. unfold Client.self_socket, Client.sock_send. py_run.
  by rewrite Hs.
Qed.

Lemma send_loop_outcome s out room k total_sent w :
  (total_sent ≤ length out)%nat →
  Client.socket (self w) = Some s →
  let r := Client.send_loop out room k total_sent w in
  ∃ writes,
    events (world_of r) = events w ++ writes
    ∧ self (world_of r) = self w
    ∧ Trace.send_outcome s out total_sent (raised r) writes.
Proof.
  funelim (Client.send_loop out room k total_sent w); intros Hle Hs; cbn zeta.
  all: try match goal with
       | Hw : (Client.self_socket ≫= _) _ = _ |- _ =>
           rewrite (send_write_run _ _ _ _ Hs) in Hw;
           first [discriminate Hw | injection Hw as Hsent Hw; subst w']
       end.
  - (* the loop condition is false *)
    exists []. cbn. rewrite app_nil_r. split_and!; [done..|]. left.
    split_and!; [done|done| |].
    + unfold Trace.sent_count. cbn. lia.
    + symmetry. apply drop_ge. lia.
  - (* the write took nothing *)
    exists [EvSend s (drop total_sent out) 0]. cbn.
    split_and!; [by rewrite Hsent, e|done|]. right. split; [done|].
    exists []. unfold Trace.sent_count. cbn. rewrite Nat.add_0_r.
    split_and!; [done|done|lia|done].
  - (* the write took [sent] bytes: go round again *)
    assert (Hlen : length (drop total_sent out) = (length out - total_sent)%nat)
      by apply length_drop.
    destruct (H s) as (writes & Hev & Hself & Hout); [lia|done|].
    exists (EvSend s (drop total_sent out) sent :: writes).
    split_and!.
    + rewrite Hev. cbn. by rewrite <- app_assoc, Hsent.
    + by rewrite Hself.
    + apply send_outcome_cons; [lia|done].
Qed.

End ClientSend.

(** C5.  On a connected Client, [send] with a payload [out] of length L
    makes a run of [socket.send] calls, each handed the part of [out] not yet
    taken, and ends in one of two ways.  Either it returns: every call took
    at least one byte, the counts add up to exactly L and the bytes taken
    are [out] itself.  Or it raises the broken-connection [RuntimeError]: the
    last call took zero bytes while some of [out] remained, every call
    before it took at least one byte, and nothing was attempted after it. *)
Theorem send_never_undersends (w : world Client.t) (message : Py.message)
    (out : list byte) (room : nat → nat) (s : sock) :
  body message !! "message" = Some (VBytes out) →
  Client.socket (self w) = Some s →
  let r := Client.send message room w in
  ∃ writes,
    events (world_of r) = events w ++ writes
    ∧ self (world_of r) = self w
    ∧ ((raised r = None
        ∧ Trace.sends_from s out 0 writes
        ∧ Trace.sent_count writes = length out
        ∧ Trace.taken writes = out)
       ∨ (raised r = Some (RuntimeError "socket connection broken")
          ∧ ∃ pre,
              writes = pre ++ [EvSend s (drop (Trace.sent_count pre) out) 0]
              ∧ Trace.sends_from s out 0 pre
              ∧ (Trace.sent_count pre < length out)%nat
              ∧ Trace.taken pre = take (Trace.sent_count pre) out)).
Proof.
  intros Hb Hs r.
  assert (Hr : r = Client.send_loop out room 0 0 w).
  { subst r. unfold Client.send. py_unfold. by rewrite Hb. }
  rewrite Hr.
  destruct (send_loop_outcome s out room 0 0 w) as (writes & Hev & Hself & Hout);
    [lia|done|].
  exists writes. split_and!; [done..|]. exact Hout.
Qed.

(** When the kernel always has room for at least one byte, [send] returns:
    the zero-byte write is the only way the loop raises on a connected
    socket. *)
Lemma send_loop_completes s out room k total_sent (w : world Client.t) :
  Client.socket (self w) = Some s →
  (∀ k, 0 < room k)%nat →
  raised (Client.send_loop out room k total_sent w) = None.
Proof.
  funelim (Client.send_loop out room k total_sent w); intros Hs Hroom.
  all: try match goal with
       | Hw : (Client.self_socket ≫= _) _ = _ |- _ =>
           rewrite (send_write_run _ _ _ _ Hs) in Hw;
           first [discriminate Hw | injection Hw as Hsent Hw; subst w']
       end.
  - done.
  - exfalso. specialize (Hroom k).
    assert (length (drop total_sent out) = (length out - total_sent)%nat)
      by apply length_drop.
    lia.
  - by eapply H.
Qed.

(** A payload of five bytes goes out in three writes of 2, 1 and 2 bytes. *)
Example send_in_three_writes :
  events (world_of (Client.send (Sample.send_message "message" Sample.hello)
                      Sample.room Sample.connected))
  = [EvSend 4 [x68; x65; x6c; x6c; x6f]%byte 2;
     EvSend 4 [x6c; x6c; x6f]%byte 1;
     EvSend 4 [x6c; x6f]%byte 2].
Proof. by vm_compute. Qed.

(** With no room in the kernel the first write takes nothing and [send]
    raises at once. *)
Example send_with_no_room :
  Client.send (Sample.send_message "message" Sample.hello) Sample.no_room
    Sample.connected
  = Raise (RuntimeError "socket connection broken")
      (World (self Sample.connected) [EvSend 4 Sample.hello 0]).
Proof. by vm_compute. Qed.

(** ** Client: the poll loop of connect *)

Section PollLoop.

Context {A : Type}.
Implicit Types (w : world A).

Lemma no_empty_read_split pre e post :
  Trace.no_empty_read (pre ++ e :: post) → ¬ Trace.empty_read e.
Proof.
  unfold Trace.no_empty_read. rewrite Forall_app, Forall_cons. tauto.
Qed.

(** In a run that obeys the discipline, an empty read is the last call and
    the run ended with the broken-connection error. *)
Lemma stops_at_empty_read_last new exc pre e post :
  Trace.stops_at_empty_read new exc →
  new = pre ++ e :: post →
  Trace.empty_read e →
  post = [] ∧ exc = Some (RuntimeError "socket connection broken").
Proof.
  intros [Hclean|(pre' & e' & -> & Hclean & He' & ->)] Hnew He.
  - subst new. by apply no_empty_read_split in Hclean.
  - destruct post as [|x post _] using rev_ind.
    + done.
    + exfalso.
      rewrite app_comm_cons, app_assoc in Hnew.
      apply app_inj_tail in Hnew as [-> _].
      by apply no_empty_read_split in Hclean.
Qed.

(** A statement that makes no call is safe. *)
Lemma read_safe_silent {R} (c : prog A R) :
  (∀ w, events (world_of (c w)) = events w) → Trace.read_safe c.
Proof.
  intros Hc w. exists []. rewrite app_nil_r. split; [done|].
  left. apply Forall_nil_2.
Qed.

Lemma read_safe_ret {R} (r : R) : Trace.read_safe (ret (A:=A) r).
Proof. apply read_safe_silent. by intros []. Qed.

Lemma read_safe_raise {R} e : Trace.read_safe (raise (A:=A) (R:=R) e).
Proof. apply read_safe_silent. by intros []. Qed.

Lemma read_safe_get : Trace.read_safe (get (A:=A)).
Proof. apply read_safe_silent. by intros []. Qed.

Lemma read_safe_modify f : Trace.read_safe (modify (A:=A) f).
Proof. apply read_safe_silent. by intros []. Qed.

Lemma read_safe_call e : ¬ Trace.empty_read e → Trace.read_safe (call (A:=A) e).
Proof.
  intros He w. exists [e]. cbn. split; [done|]. left.
  by apply Forall_singleton.
Qed.

(** Sequencing: the second statement runs only if the first returned, and
    then the first made no empty read. *)
Lemma read_safe_bind {R R'} (c : prog A R) (k : R → prog A R') :
  Trace.read_safe c → (∀ r, Trace.read_safe (k r)) → Trace.read_safe (bind c k).
Proof.
  intros Hc Hk w. destruct (Hc w) as (new1 & Hev1 & Hstop1).
  unfold bind. destruct (c w) as [r w1|e w1]; cbn in *.
  - destruct (Hk r w1) as (new2 & Hev2 & Hstop2).
    exists (new1 ++ new2). split; [by rewrite Hev2, Hev1, app_assoc|].
    destruct Hstop1 as [Hclean1|(? & ? & _ & _ & _ & ?)]; [|done].
    destruct Hstop2 as [Hclean2|(pre & e & -> & Hclean2 & He & Hexc)].
    + left. by apply Forall_app.
    + right. exists (new1 ++ pre), e. rewrite app_assoc.
      split_and!; [done|by apply Forall_app|done|done].
  - by exists new1.
Qed.

Lemma read_safe_for_each {T} (loop_body : T → prog A unit) xs :
  (∀ x, Trace.read_safe (loop_body x)) →
  Trace.read_safe (for_each loop_body xs).
Proof.
  intros Hbody. induction xs as [|x xs IH]; cbn.
  - apply read_safe_ret.
  - apply read_safe_bind; [apply Hbody|]. intros _. apply IH.
Qed.

Lemma read_safe_resume {T} (loop_body : T → prog A unit) turns :
  (∀ t, Trace.read_safe (loop_body t)) →
  Trace.read_safe (resume loop_body turns).
Proof.
  intros Hbody. induction turns as [|t turns IH]; cbn.
  - apply read_safe_ret.
  - apply read_safe_bind; [apply Hbody|]. intros _. apply IH.
Qed.

Lemma read_safe_try_except {R} (c h : prog A R) :
  (∀ w, events (world_of (c w)) = events w) →
  Trace.read_safe h →
  Trace.read_safe (try_except_KeyError c h).
Proof.
  intros Hc Hh w. unfold try_except_KeyError.
  specialize (Hc w). destruct (c w) as [r w1|[] w1]; cbn in *.
  2: { destruct (Hh w1) as (new & Hev & Hstop). exists new.
       by rewrite Hev, Hc. }
  all: exists []; rewrite app_nil_r; split; [done|left; apply Forall_nil_2].
Qed.

End PollLoop.

Section ClientConnect.

Implicit Types (w : world Client.t) (message : Py.message).

Lemma read_safe_mbind {A R R'} (c : prog A R) (k : R → prog A R') :
  Trace.read_safe c → (∀ r, Trace.read_safe (k r)) → Trace.read_safe (c ≫= k).
Proof. apply read_safe_bind. Qed.

Lemma read_safe_self_socket : Trace.read_safe Client.self_socket.
Proof.
  apply read_safe_silent. intros w. unfold Client.self_socket. py_run.
  by destruct (Client.socket (self w)).
Qed.

(** The read and the test that follows it (lines 162-165): an empty chunk
    raises before anything else is done. *)
Lemma read_safe_recv_check s bufsize pending (k : list byte → prog Client.t unit) :
  (∀ chunk, Trace.read_safe (k chunk)) →
  Trace.read_safe
    (chunk ← Client.sock_recv s bufsize pending;
     if decide (chunk = []) then raise (RuntimeError "socket connection broken")
     else k chunk).
Proof.
  intros Hk w. unfold Client.sock_recv.
  destruct bufsize as [|n| | |]; py_run;
    try (exists []; rewrite app_nil_r; split; [done|left; apply Forall_nil_2]).
  destruct (decide (0 ≤ n)); py_run;
    [|exists []; rewrite app_nil_r; split; [done|left; apply Forall_nil_2]].
  destruct (decide (take (Z.to_nat n) pending = [])) as [Hempty|Hchunk]; cbn.
  - exists [EvRecv s n (take (Z.to_nat n) pending)]. split; [done|].
    right. exists [], (EvRecv s n (take (Z.to_nat n) pending)).
    split_and!; [done|apply Forall_nil_2|by rewrite Hempty|done].
  - set (w1 := World _ _).
    destruct (Hk (take (Z.to_nat n) pending) w1) as (new & Hev & Hstop).
    exists (EvRecv s n (take (Z.to_nat n) pending) :: new).
    split; [rewrite Hev; subst w1; cbn; by rewrite <- app_assoc|].
    assert (Hread : ¬ Trace.empty_read (EvRecv s n (take (Z.to_nat n) pending))).
    { clearbody w1. cbn. destruct (take (Z.to_nat n) pending); [congruence|tauto]. }
    destruct Hstop as [Hclean|(pre & e & -> & Hclean & He & Hexc)].
    + left. by apply Forall_cons.
    + right. exists (EvRecv s n (take (Z.to_nat n) pending) :: pre), e.
      split_and!; [done|by apply Forall_cons|done|done].
Qed.

Lemma read_safe_handle_event chunk_size socket_from_fd e :
  Trace.read_safe (Client.handle_event chunk_size socket_from_fd e).
Proof.
  unfold Client.handle_event. apply read_safe_mbind.
  { unfold getitem_int. destruct (socket_from_fd !! Client.fd e).
    - apply read_safe_ret.
    - apply read_safe_raise. }
  intros sock. destruct (decide _); [|apply read_safe_ret].
  apply read_safe_mbind; [apply read_safe_self_socket|]. intros s.
  destruct (decide _); [|apply read_safe_ret].
  apply read_safe_mbind; [apply read_safe_self_socket|]. intros s'.
  apply read_safe_recv_check. intros chunk.
  apply read_safe_mbind; [apply read_safe_get|]. intros a.
  apply read_safe_call; cbn; tauto.
Qed.

Lemma read_safe_connect_body chunk_size socket_from_fd events :
  Trace.read_safe (Client.connect_body chunk_size socket_from_fd events).
Proof.
  unfold Client.connect_body.
  apply read_safe_mbind; [apply read_safe_get|]. intros a.
  apply read_safe_mbind; [apply read_safe_call; cbn; tauto|]. intros _.
  apply read_safe_mbind;
    [apply read_safe_for_each, read_safe_handle_event|]. intros _.
  apply read_safe_call; cbn; tauto.
Qed.

(** The two subscripts of the [try] block make no call. *)
Lemma host_port_silent message w :
  events (world_of
            ((host ← getitem (body message) "host";
              port ← getitem (body message) "port";
              mret (host, port)) w))
  = events w.
Proof.
  py_run. destruct (body message !! "host"); py_run; [|done].
  by destruct (body message !! "port").
Qed.

Lemma read_safe_connect_setup message klass default_timeout s :
  Trace.read_safe (Client.connect_setup message klass default_timeout s).
Proof.
  unfold Client.connect_setup. apply read_safe_mbind.
  { apply read_safe_try_except; [apply host_port_silent|].
    apply read_safe_mbind; [|intros; apply read_safe_raise].
    unfold lift. destruct (str_format _ _ _).
    - apply read_safe_raise.
    - apply read_safe_ret. }
  intros hp.
  apply read_safe_mbind; [apply read_safe_call; cbn; tauto|]. intros _.
  apply read_safe_mbind; [apply read_safe_modify|]. intros _.
  apply read_safe_mbind.
  { apply read_safe_mbind; [apply read_safe_self_socket|].
    intros; apply read_safe_call; cbn; tauto. }
  intros _. apply read_safe_mbind.
  { apply read_safe_mbind; [apply read_safe_self_socket|].
    intros; apply read_safe_call; cbn; tauto. }
  intros _. apply read_safe_mbind; [apply read_safe_self_socket|].
  intros; apply read_safe_ret.
Qed.

Lemma read_safe_connect message klass default_timeout s turns :
  Trace.read_safe (Client.connect message klass default_timeout s turns).
Proof.
  unfold Client.connect.
  apply read_safe_mbind; [apply read_safe_connect_setup|]. intros env.
  apply read_safe_resume. intros t. apply read_safe_connect_body.
Qed.

(** The template names a keyword field and is formatted with a positional
    argument only. *)
Lemma connect_error_template_format klass :
  str_format Client.connect_error_template [klass] []
  = inl (KeyError (VStr "klass")).
Proof. reflexivity. Qed.

Lemma connect_without_host_or_port w message klass default_timeout s turns :
  body message !! "host" = None ∨ body message !! "port" = None →
  Client.connect message klass default_timeout s turns w
  = Raise (KeyError (VStr "klass")) w.
Proof.
  intros Hmissing.
  unfold Client.connect, Client.connect_setup, try_except_KeyError.
  py_run. rewrite connect_error_template_format.
  destruct (body message !! "host") as [host|] eqn:Hh; py_run.
  - destruct Hmissing as [?|Hp]; [done|]. by rewrite Hp.
  - done.
Qed.

End ClientConnect.

(** ** Claims about connect *)

(** C3.  When the body of the connect message lacks "host" or "port", the
    subscript raises [KeyError] and the handler on lines 130-132 runs.  It
    means to raise [ValueError], but its message template names the field
    [{klass}] and is formatted with a positional argument, so [str.format]
    raises [KeyError('klass')] first, and that is the exception [connect]
    ends with.  No call is made on any socket: the world is unchanged. *)
Theorem connect_missing_argument (w : world Client.t) (message : Py.message)
    (klass : string) (default_timeout : value) (s : sock)
    (turns : list (list Client.ready)) :
  body message !! "host" = None ∨ body message !! "port" = None →
  Client.connect message klass default_timeout s turns w
  = Raise (KeyError (VStr "klass")) w
  ∧ ∀ msg, raised (Client.connect message klass default_timeout s turns w)
           ≠ Some (ValueError msg).
Proof.
  intros Hmissing.
  rewrite (connect_without_host_or_port _ _ _ _ _ _ Hmissing).
  split; [done|]. intros msg. cbn. congruence.
Qed.

(** C4.  Take any run of [connect], resumed any number of times, and any
    call in it that is a [recv] returning no bytes.  That call is the last
    thing the generator did (so no "handle_chunk" message follows it, for
    that read or any later one, and no later iteration runs), and the
    generator ended by raising [RuntimeError('socket connection broken')]. *)
Theorem empty_read_is_fatal (w : world Client.t) (message : Py.message)
    (klass : string) (default_timeout : value) (s : sock)
    (turns : list (list Client.ready)) (pre post : list event) (e : event) :
  events (world_of (Client.connect message klass default_timeout s turns w))
  = events w ++ pre ++ e :: post →
  Trace.empty_read e →
  post = []
  ∧ raised (Client.connect message klass default_timeout s turns w)
    = Some (RuntimeError "socket connection broken").
Proof.
  intros Hev He.
  destruct (read_safe_connect message klass default_timeout s turns w)
    as (new & Hnew & Hstop).
  rewrite Hnew in Hev. apply app_inv_head in Hev.
  by eapply stops_at_empty_read_last.
Qed.

(** ** Directive and field names *)

Section Names.

Lemma server_routing base handler :
  Server.message_routing (Server.__init__ base handler) !! "listen"
  = Some Server.Listen
  ∧ Server.message_routing (Server.__init__ base handler) !! "respond"
    = Some Server.Respond.
Proof.
  cbn. split; [apply lookup_insert_eq|].
  rewrite lookup_insert_ne by done. apply lookup_insert_eq.
Qed.

(** [Server.__init__] adds nothing else to the routing table. *)
Lemma server_routing_frame base handler (d : string) :
  d ≠ "listen" → d ≠ "respond" →
  Server.message_routing (Server.__init__ base handler) !! d = base !! d.
Proof. intros H1 H2. cbn. by rewrite !lookup_insert_ne. Qed.

Lemma client_routing base chunk_handler poll_timeout :
  Client.message_routing (Client.__init__ base chunk_handler poll_timeout)
    !! "connect" = Some Client.Connect
  ∧ Client.message_routing (Client.__init__ base chunk_handler poll_timeout)
      !! "send" = Some Client.Send.
Proof.
  cbn. split; [|apply lookup_insert_eq].
  rewrite lookup_insert_ne by done. apply lookup_insert_eq.
Qed.

Lemma send_loop_no_KeyError out room k total_sent (w : world Client.t) key :
  raised (Client.send_loop out room k total_sent w) ≠ Some (KeyError key).
Proof.
  funelim (Client.send_loop out room k total_sent w); cbn; try congruence.
  (* the write itself raised: the socket attribute is missing *)
  match goal with Hw : (Client.self_socket ≫= _) _ = _ |- _ => revert Hw end.
  unfold Client.self_socket, Client.sock_send. py_run.
  destruct (Client.socket (self w)); cbn; congruence.
Qed.

Lemma client_send_field (m : Py.message) room (w : world Client.t) :
  match body m !! "message" with
  | None => Client.send m room w = Raise (KeyError (VStr "message")) w
  | Some _ => raised (Client.send m room w) ≠ Some (KeyError (VStr "message"))
  end.
Proof.
  unfold Client.send. py_unfold.
  destruct (body m !! "message") as [[| |[|c str]|out|]|]; cbn;
    try congruence.
  - unfold Client.self_socket. py_run.
    destruct (Client.socket (self w)); cbn; congruence.
  - apply send_loop_no_KeyError.
  - unfold Client.self_socket. py_run.
    destruct (Client.socket (self w)); cbn; congruence.
Qed.

Lemma listen_messages base handler message s turns :
  Trace.sent_messages
    (events (world_of (Server.listen message s turns
                         (World (Server.__init__ base handler) []))))
  = Hive.handle_request handler <$> Hive.accepting turns.
Proof.
  rewrite listen_run, listen_setup_run. cbn [world_of].
  set (w1 := World _ _).
  destruct (after_turns_events s turns w1) as (_ & Hm & _). by rewrite Hm.
Qed.

End Names.

(** C8, as the code has it.  The Listener's constructor routes the directive
    "listen" to [listen], which starts the accept loop, and "respond" to
    [respond]; every message [listen] sends goes to the configured handler
    under the directive "handle_request", with the accepted connection in the
    body field "request".  The Dialer's constructor routes "connect" and
    "send"; its [send] reads the payload from the body field "message" and
    from nothing else in the message: it raises [KeyError('message')] exactly
    when that field is missing, and two messages that agree on that field
    are treated alike. *)
Theorem directive_names (base_s : gmap string Server.method)
    (base_c : gmap string Client.method) (handler chunk_handler poll_timeout : value)
    (message : Py.message) (s : sock) (turns : list Server.turn)
    (m m' : Py.message) (room : nat → nat) (wc : world Client.t) :
  body m !! "message" = body m' !! "message" →
  Server.message_routing (Server.__init__ base_s handler) !! "listen"
  = Some Server.Listen
  ∧ Server.message_routing (Server.__init__ base_s handler) !! "respond"
    = Some Server.Respond
  ∧ Client.message_routing (Client.__init__ base_c chunk_handler poll_timeout)
      !! "connect" = Some Client.Connect
  ∧ Client.message_routing (Client.__init__ base_c chunk_handler poll_timeout)
      !! "send" = Some Client.Send
  ∧ Forall (λ sent, sent.1.1 = (handler, "handle_request")
                    ∧ ∃ c a, sent.1.2 = {["request" := VConn c a]})
      (Trace.sent_messages
         (events (world_of (Server.listen message s turns
                              (World (Server.__init__ base_s handler) [])))))
  ∧ Client.send m room wc = Client.send m' room wc
  ∧ match body m !! "message" with
    | None => Client.send m room wc = Raise (KeyError (VStr "message")) wc
    | Some _ =>
        raised (Client.send m room wc) ≠ Some (KeyError (VStr "message"))
    end.
Proof.
  intros Hfield.
  destruct (server_routing base_s handler) as [Hl Hr].
  destruct (client_routing base_c chunk_handler poll_timeout) as [Hc Hs].
  split_and!; [done..| | |apply client_send_field].
  - rewrite listen_messages. apply Forall_fmap, Forall_forall.
    intros t _. cbn. split; [done|]. by do 2 eexists.
  - unfold Client.send. py_unfold. by rewrite Hfield.
Qed.

(** C8, as the specification words it, fails on three counts.  With a base
    class that routes nothing, "start_listening" is not routed.  The message
    sent for an accepted connection has the directive "handle_request", not
    "handle_connection".  And a Dialer [send] whose payload is in the body
    field "bytes" raises [KeyError('message')] without writing anything. *)
Lemma directive_names_counterexample :
  Server.message_routing (self Sample.server0) !! "start_listening" = None
  ∧ (Trace.sent_messages
       (events (world_of (Server.listen Sample.listen_message 3 Sample.turns
                            Sample.server0)))
     = [(VStr "handler", "handle_request",
         {["request" := VConn 7 ("10.0.0.1", 5000)]}, "id1");
        (VStr "handler", "handle_request",
         {["request" := VConn 8 ("10.0.0.2", 5001)]}, "id2")]
     ∧ "handle_request" ≠ "handle_connection")
  ∧ Client.send (Sample.send_message "bytes" Sample.OK) Sample.room
      Sample.connected
    = Raise (KeyError (VStr "message")) Sample.connected.
Proof. split_and!; [by vm_compute..|done|by vm_compute]. Qed.

(** ** The claims at sample inputs *)

Lemma accept_loop_counts_witness :
  ∃ w',
    Server.listen Sample.listen_message 3 Sample.turns Sample.server0
    = Return tt w'
    ∧ Trace.accepted (events w') = [Sample.peer1; Sample.peer2]
    ∧ size (Server.requests (self w')) = 2%nat.
Proof.
  destruct (accept_loop_counts ∅ (VStr "handler") Sample.listen_message 3
              Sample.turns)
    as (w' & Hrun & Hacc & _ & _ & _ & Hsize & _).
  - apply (bool_decide_unpack _). by vm_compute.
  - exists w'. split; [exact Hrun|]. split; [exact Hacc | exact Hsize].
Defined.

Lemma respond_then_unknown_witness :
  ∃ w',
    Server.respond (Sample.reply "respond" "id1" Sample.OK) Sample.serving
    = Return tt w'
    ∧ events w' = [EvSendall 7 Sample.OK; EvClose 7]
    ∧ Server.respond (Sample.reply "respond" "id1" Sample.OK) w'
      = Raise TypeError w'.
Proof.
  destruct (respond_then_unknown Sample.serving
              (Sample.reply "respond" "id1" Sample.OK) "id1" Sample.peer1
              Sample.OK eq_refl eq_refl eq_refl)
    as (w' & Hrun & Hev & _ & Hlater).
  exists w'. split; [exact Hrun|]. split; [exact Hev|].
  exact (proj1 (Hlater [] (Sample.reply "respond" "id1" Sample.OK)
                  (Forall_nil_2 _) eq_refl)).
Defined.

Lemma send_then_respond_witness :
  ∃ w1 w2,
    Server.send (Sample.reply "send" "id1" Sample.hello) Sample.serving
    = Return tt w1
    ∧ Server.respond (Sample.reply "respond" "id1" Sample.OK) w1 = Return tt w2
    ∧ events w2
      = [EvSendall 7 Sample.hello; EvSendall 7 Sample.OK; EvClose 7]
    ∧ Server.requests (self w2) !! "id1" = None.
Proof.
  destruct (send_then_respond Sample.serving
              (Sample.reply "send" "id1" Sample.hello)
              (Sample.reply "respond" "id1" Sample.OK) "id1" Sample.peer1
              Sample.hello Sample.OK eq_refl eq_refl eq_refl eq_refl eq_refl)
    as (w1 & w2 & Hsend & Hev1 & _ & Hrespond & Hev2 & Hgone & _).
  exists w1, w2. split; [exact Hsend|]. split; [exact Hrespond|].
  split; [|exact Hgone]. rewrite Hev2, Hev1. reflexivity.
Defined.

Lemma close_keeps_entry_witness :
  ∃ w',
    Server.close (Message "close" ∅ (Some "id1")) Sample.serving = Return tt w'
    ∧ events w' = [EvClose 7]
    ∧ Server.requests (self w') !! "id1" = Some Sample.peer1.
Proof.
  destruct (close_keeps_entry Sample.serving (Message "close" ∅ (Some "id1"))
              "id1" Sample.peer1 eq_refl eq_refl)
    as (w' & Hrun & Hev & _ & Hentry).
  exists w'. split; [exact Hrun|]. split; [exact Hev | exact Hentry].
Defined.

Lemma absent_id_fails_first_witness :
  Server.respond (Sample.reply "respond" "id2" Sample.OK) Sample.serving
  = Raise TypeError Sample.serving
  ∧ Server.send (Sample.reply "send" "id2" Sample.OK) Sample.serving
    = Raise TypeError Sample.serving
  ∧ Server.close (Sample.reply "close" "id2" Sample.OK) Sample.serving
    = Raise TypeError Sample.serving.
Proof.
  split; [|split].
  - exact (proj1 (absent_id_fails_first Sample.serving
                    (Sample.reply "respond" "id2" Sample.OK) eq_refl)).
  - exact (proj1 (proj2 (absent_id_fails_first Sample.serving
                           (Sample.reply "send" "id2" Sample.OK) eq_refl))).
  - exact (proj2 (proj2 (absent_id_fails_first Sample.serving
                           (Sample.reply "close" "id2" Sample.OK) eq_refl))).
Defined.

Lemma connect_missing_argument_witness :
  Client.connect Sample.connect_without_port "Client" VNone 4 Sample.polled
    Sample.client0
  = Raise (KeyError (VStr "klass")) Sample.client0.
Proof.
  exact (proj1 (connect_missing_argument Sample.client0
                  Sample.connect_without_port "Client" VNone 4 Sample.polled
                  (or_intror eq_refl))).
Defined.

Lemma empty_read_is_fatal_witness :
  raised (Client.connect Sample.connect_message "Client" VNone 4 Sample.polled
            Sample.client0)
  = Some (RuntimeError "socket connection broken").
Proof.
  refine (proj2 (empty_read_is_fatal Sample.client0 Sample.connect_message
                   "Client" VNone 4 Sample.polled Sample.before_empty_read []
                   (EvRecv 4 1024 []) _ I)).
  by vm_compute.
Defined.

Lemma send_never_undersends_witness :
  let r := Client.send (Sample.send_message "message" Sample.hello) Sample.room
             Sample.connected in
  ∃ writes,
    events (world_of r) = writes
    ∧ ((raised r = None
        ∧ Trace.sends_from 4 Sample.hello 0 writes
        ∧ Trace.sent_count writes = 5%nat
        ∧ Trace.taken writes = Sample.hello)
       ∨ (raised r = Some (RuntimeError "socket connection broken")
          ∧ ∃ pre,
              writes
              = pre ++ [EvSend 4 (drop (Trace.sent_count pre) Sample.hello) 0]
              ∧ Trace.sends_from 4 Sample.hello 0 pre
              ∧ (Trace.sent_count pre < 5)%nat
              ∧ Trace.taken pre = take (Trace.sent_count pre) Sample.hello)).
Proof.
  destruct (send_never_undersends Sample.connected
              (Sample.send_message "message" Sample.hello) Sample.hello
              Sample.room 4 eq_refl eq_refl)
    as (writes & Hev & _ & Hout).
  exists writes. split; [exact Hev | exact Hout].
Defined.

Lemma directive_names_witness :
  Client.send (Sample.send_message "message" Sample.OK) Sample.room
    Sample.connected
  = Client.send
      (Message "send" {["message" := VBytes Sample.OK; "bytes" := VNone]}
         (Some "id1"))
      Sample.room Sample.connected.
Proof.
  destruct (directive_names ∅ ∅ (VStr "handler") (VStr "chunks") (VInt 10)
              Sample.listen_message 3 Sample.turns
              (Sample.send_message "message" Sample.OK)
              (Message "send" {["message" := VBytes Sample.OK; "bytes" := VNone]}
                 (Some "id1"))
              Sample.room Sample.connected)
    as (_ & _ & _ & _ & _ & Hsame & _).
  - by vm_compute.
  - exact Hsame.
Defined.

(** * Further properties *)

(** ** Server: failures, frames and round trips *)

(** X1.  When the id is in the table but the message body has no "response"
    field, [respond] and [send] raise [KeyError('response')] after the lookup
    and before any socket call: nothing is written, the socket is not closed
    and the entry stays. *)
Theorem response_field_required (w : world Server.t) (message : Py.message)
    (id : string) (r : sock * addr) :
  in_reply_to message = Some id →
  Server.requests (self w) !! id = Some r →
  body message !! "response" = None →
  Server.respond message w = Raise (KeyError (VStr "response")) w
  ∧ Server.send message w = Raise (KeyError (VStr "response")) w.
Proof.
  intros Hid Hr Hb. unfold Server.respond, Server.send. py_unfold.
  by rewrite (lookup_request_present _ _ _ _ Hid Hr), Hb.
Qed.

(** X2.  An exception raised by [respond], [send] or [close] (unknown id,
    missing "response" field, a response that is not bytes) is raised before
    any socket call and before the table is touched: the world it leaves is
    the world it was given. *)
Theorem server_ops_fail_clean (w : world Server.t) (message : Py.message) :
  match Server.respond message w with
  | Raise _ w' => w' = w
  | Return _ _ => True
  end
  ∧ match Server.send message w with
    | Raise _ w' => w' = w
    | Return _ _ => True
    end
  ∧ match Server.close message w with
    | Raise _ w' => w' = w
    | Return _ _ => True
    end.
Proof.
  unfold Server.respond, Server.send, Server.close, Server.lookup_request,
    Server.sock_sendall, Server.del_request.
  py_run.
  destruct (in_reply_to message) as [k|]; py_run; [|done].
  destruct (Server.requests (self w) !! k) as [r|] eqn:Hk; py_run; [|done].
  destruct (body message !! "response") as [[]|]; py_run; try done.
  by rewrite Hk.
Qed.

(** X3.  A successful [respond] removes exactly one entry: the table shrinks
    by one, every other id keeps its connection, and the listening socket,
    the handler and the routing table are unchanged. *)
Theorem respond_removes_only_its_entry (w : world Server.t)
    (message : Py.message) (id : string) (r : sock * addr) (bs : list byte) :
  in_reply_to message = Some id →
  Server.requests (self w) !! id = Some r →
  body message !! "response" = Some (VBytes bs) →
  let w' := world_of (Server.respond message w) in
  S (size (Server.requests (self w'))) = size (Server.requests (self w))
  ∧ (∀ id', id' ≠ id →
       Server.requests (self w') !! id' = Server.requests (self w) !! id')
  ∧ Server.socket (self w') = Server.socket (self w)
  ∧ Server.request_handler (self w') = Server.request_handler (self w)
  ∧ Server.message_routing (self w') = Server.message_routing (self w).
Proof.
  intros Hid Hr Hb. rewrite (respond_present _ _ _ _ _ Hid Hr Hb). cbn.
  split_and!; [|intros id' Hne; by rewrite lookup_delete_ne|done..].
  rewrite map_size_delete_Some by (by eexists).
  assert (size (Server.requests (self w)) ≠ 0%nat); [|lia].
  intros Hz. apply map_size_empty_inv in Hz. rewrite Hz in Hr.
  by rewrite lookup_empty in Hr.
Qed.

Section ServerFrames.

Implicit Types (w : world Server.t) (message : Py.message).

(** [respond] to another id leaves the entry of [id] as it is. *)
Lemma respond_requests_other w message id :
  in_reply_to message ≠ Some id →
  Server.requests (self (world_of (Server.respond message w))) !! id
  = Server.requests (self w) !! id.
Proof.
  intros Hne.
  unfold Server.respond, Server.lookup_request, Server.sock_sendall,
    Server.del_request.
  py_run.
  destruct (in_reply_to message) as [k|]; py_run; [|done].
  destruct (Server.requests (self w) !! k) as [r|] eqn:Hk; py_run; [|done].
  destruct (body message !! "response") as [[]|]; py_run; try done.
  rewrite Hk. cbn. apply lookup_delete_ne. congruence.
Qed.

Lemma listen_body_requests_other w t id :
  (Server.readable t = true → Server.message_id t ≠ id) →
  Server.requests (self (world_of (Server.listen_body t w))) !! id
  = Server.requests (self w) !! id.
Proof.
  intros Hne. destruct (Server.socket (self w)) as [s|] eqn:Hs.
  - rewrite (listen_body_run _ _ _ Hs). unfold Hive.after_turn.
    destruct (Server.readable t); cbn; [|done].
    rewrite lookup_insert_ne; auto.
  - by rewrite (listen_body_unbound _ _ Hs).
Qed.

Lemma run_leaves_alone ds : ∀ w id,
  Hive.leaves_alone id ds →
  Server.requests (self (Hive.run ds w)) !! id
  = Server.requests (self w) !! id.
Proof.
  induction ds as [|d ds IH]; intros w id Hds; [done|].
  apply Forall_cons in Hds as [Hd Hds].
  change (Hive.run (d :: ds) w) with (Hive.run ds (world_of (Hive.handle d w))).
  rewrite (IH _ _ Hds).
  destruct d; cbn.
  - by apply respond_requests_other.
  - by rewrite send_self.
  - by rewrite close_self.
  - by apply listen_body_requests_other.
Qed.

(** Where an id ends up after the loop: with the connection of the last
    iteration that was issued it, else where it was. *)
Lemma after_turns_lookup s turns : ∀ w id,
  Server.requests (self (Hive.after_turns s turns w)) !! id
  = match last (Hive.issued id turns) with
    | Some t => Some (Server.req t)
    | None => Server.requests (self w) !! id
    end.
Proof.
  induction turns as [|t turns IH]; intros w id; [done|].
  change (Hive.after_turns s (t :: turns) w)
    with (Hive.after_turns s turns (Hive.after_turn s t w)).
  rewrite IH. unfold Hive.issued. rewrite accepting_cons.
  unfold Hive.after_turn.
  destruct (Server.readable t); [|done].
  rewrite filter_cons. destruct (decide (Server.message_id t = id)) as [<-|Hne].
  - rewrite last_cons. destruct (last _); [done|]. cbn. apply lookup_insert_eq.
  - destruct (last _); [done|]. cbn. by rewrite lookup_insert_ne.
Qed.

Lemma after_turns_size s turns : ∀ w,
  (size (Server.requests (self (Hive.after_turns s turns w)))
   ≤ size (Server.requests (self w)) + length (Hive.accepting turns))%nat.
Proof.
  induction turns as [|t turns IH]; intros w; [cbn; lia|].
  change (Hive.after_turns s (t :: turns) w)
    with (Hive.after_turns s turns (Hive.after_turn s t w)).
  specialize (IH (Hive.after_turn s t w)). rewrite accepting_cons.
  unfold Hive.after_turn in *. destruct (Server.readable t); [|done].
  cbn in *. rewrite map_size_insert in IH.
  destruct (Server.requests (self w) !! Server.message_id t); cbn in *; lia.
Qed.

(** The loop makes no call that reads from, writes to or closes a socket. *)
Lemma after_turns_hands_off s turns : ∀ w,
  ∃ new,
    events (Hive.after_turns s turns w) = events w ++ new
    ∧ Forall (λ e, ¬ Trace.uses_connection e) new.
Proof.
  induction turns as [|t turns IH]; intros w.
  { exists []. by rewrite app_nil_r. }
  change (Hive.after_turns s (t :: turns) w)
    with (Hive.after_turns s turns (Hive.after_turn s t w)).
  destruct (IH (Hive.after_turn s t w)) as (new & Hev & Hnew).
  unfold Hive.after_turn in *.
  destruct (Server.readable t); cbn in Hev; rewrite <- app_assoc in Hev;
    eexists; (split; [exact Hev|]);
    apply Forall_app; (split; [|done]);
    repeat (apply Forall_cons; split; [cbn; tauto|]); apply Forall_nil_2.
Qed.

End ServerFrames.

(** X4.  An entry of the table survives, with the same connection, any
    sequence of deliveries to the Server other than a [respond] to its own
    id and an accept that is issued the same id: [send], [close], [respond]
    to other ids and further accepts do not remove or change it.  In
    particular [close] never evicts. *)
Theorem entry_survives_other_deliveries (w : world Server.t)
    (ds : list Hive.delivery) (id : string) (r : sock * addr) :
  Server.requests (self w) !! id = Some r →
  Hive.leaves_alone id ds →
  Server.requests (self (Hive.run ds w)) !! id = Some r.
Proof. intros Hr Hds. by rewrite run_leaves_alone. Qed.

(** X5.  Without the assumption that the hive's ids are distinct, the table
    after [listen] on a fresh Server maps each id to the connection of the
    last iteration that was issued it, and to nothing if none was: a repeated
    id silently replaces the earlier connection, so the table has at most as
    many entries as connections were accepted. *)
Theorem repeated_id_overwrites (base : gmap string Server.method)
    (handler : value) (message : Py.message) (s : sock)
    (turns : list Server.turn) (id : string) :
  let w' := world_of (Server.listen message s turns
                        (World (Server.__init__ base handler) [])) in
  Server.requests (self w') !! id = Server.req <$> last (Hive.issued id turns)
  ∧ (size (Server.requests (self w')) ≤ length (Trace.accepted (events w')))%nat.
Proof.
  cbn zeta. rewrite listen_run, listen_setup_run. cbn [world_of].
  set (w1 := World _ _). split.
  - rewrite after_turns_lookup. destruct (last _); [done|]. apply lookup_empty.
  - destruct (after_turns_events s turns w1) as (Ha & _ & _).
    rewrite Ha, length_app, length_fmap.
    pose proof (after_turns_size s turns w1) as Hsz.
    cbn in Hsz. rewrite map_size_empty in Hsz. cbn. lia.
Qed.

(** Two connections accepted under the same id: one entry, the second
    connection. *)
Example repeated_id_sample :
  map_to_list
    (Server.requests
       (self (world_of (Server.listen Sample.listen_message 3
                          Sample.turns_same_id Sample.server0))))
  = [("id1", Sample.peer2)].
Proof. by vm_compute. Qed.

(** X6.  Accepting a connection under an id that is not in the table and
    then responding to that id is a round trip on the table: it is back to
    what it was before the accept, and in between the connection was
    announced once, written to once and closed once. *)
Theorem accept_respond_round_trip (w : world Server.t) (s : sock)
    (t : Server.turn) (message : Py.message) (bs : list byte) :
  Server.socket (self w) = Some s →
  Server.readable t = true →
  Server.requests (self w) !! Server.message_id t = None →
  in_reply_to message = Some (Server.message_id t) →
  body message !! "response" = Some (VBytes bs) →
  ∃ w1 w2,
    Server.listen_body t w = Return tt w1
    ∧ Server.respond message w1 = Return tt w2
    ∧ self w2 = self w
    ∧ events w2
      = events w
        ++ [EvSelect s true; EvAccept s (Server.req t);
            EvSendMessage (Server.request_handler (self w)) "handle_request"
              {["request" := VConn (Server.req t).1 (Server.req t).2]}
              (Server.message_id t);
            EvWaitOnSelf;
            EvSendall (Server.req t).1 bs; EvClose (Server.req t).1].
Proof.
  intros Hs Hread Hfresh Hid Hb. do 2 eexists.
  split; [by apply listen_body_run|].
  unfold Hive.after_turn. rewrite Hread.
  split.
  { eapply respond_present; [done| |done]. cbn. apply lookup_insert_eq. }
  cbn. split; [|by rewrite <- app_assoc].
  unfold Server.set_requests. cbn. rewrite delete_insert_id by done.
  by destruct (self w).
Qed.

(** X7.  Resuming the accept loop on a Server that already holds
    connections, with ids that are distinct and not in the table, adds
    exactly one entry per accepted connection and leaves every entry that
    was there as it was. *)
Theorem accept_loop_keeps_entries (w : world Server.t) (s : sock)
    (turns : list Server.turn) :
  Server.socket (self w) = Some s →
  NoDup (Server.message_id <$> Hive.accepting turns) →
  Forall (λ t, Server.requests (self w) !! Server.message_id t = None)
    (Hive.accepting turns) →
  ∃ w',
    resume Server.listen_body turns w = Return tt w'
    ∧ size (Server.requests (self w'))
      = (size (Server.requests (self w)) + length (Hive.accepting turns))%nat
    ∧ map_Forall (λ id r, Server.requests (self w') !! id = Some r)
        (Server.requests (self w)).
Proof.
  intros Hs Hnd Hfresh. eexists. split; [by apply resume_listen_body|].
  destruct (after_turns_requests s turns w Hnd Hfresh) as (Hsz & _ & _ & Hother).
  split; [done|]. intros id r Hr. rewrite Hother; [done|].
  intros Hin. apply list_elem_of_fmap in Hin as (t & -> & Ht).
  eapply Forall_forall in Hfresh; [|done]. congruence.
Qed.

(** X8.  [listen] only accepts and announces: it makes no call that reads
    from, writes to or closes any socket, so an accepted connection is
    untouched until [send], [close] or [respond] is called for it. *)
Theorem listen_hands_off (w : world Server.t) (message : Py.message)
    (s : sock) (turns : list Server.turn) :
  ∃ new,
    events (world_of (Server.listen message s turns w)) = events w ++ new
    ∧ Forall (λ e, ¬ Trace.uses_connection e) new.
Proof.
  rewrite listen_run, listen_setup_run. cbn [world_of].
  set (w1 := World _ _).
  destruct (after_turns_hands_off s turns w1) as (new & Hev & Hnew).
  rewrite Hev. subst w1. cbn. rewrite <- app_assoc. eexists. split; [done|].
  apply Forall_app. split; [|done].
  repeat (apply Forall_cons; split; [cbn; tauto|]). apply Forall_nil_2.
Qed.

(** X9.  [Server.__init__] adds routes for "listen" and "respond" and for
    nothing else: any other directive, "send" and "close" included, is routed
    exactly as the base class left it, so the [send] and [close] methods are
    reachable by message only if something else registers them. *)
Theorem server_routes_nothing_else (base : gmap string Server.method)
    (handler : value) (d : string) :
  d ≠ "listen" →
  d ≠ "respond" →
  Server.message_routing (Server.__init__ base handler) !! d = base !! d.
Proof. intros H1 H2. cbn. by rewrite !lookup_insert_ne. Qed.

(** ** Client: what send does at the edges *)

Section ClientSendEdges.

Implicit Types (w : world Client.t) (out : list byte).

(** Each write of a run took at least one byte, so there are no more writes
    than bytes taken. *)
Lemma sends_from_count s out writes : ∀ total_sent,
  Trace.sends_from s out total_sent writes →
  (length writes ≤ Trace.sent_count writes)%nat.
Proof.
  induction writes as [|e writes IH]; intros total_sent Hfrom; [done|].
  destruct Hfrom as (sent & -> & Hsent & Hrest).
  specialize (IH _ Hrest). unfold Trace.sent_count in *. cbn. lia.
Qed.

Lemma send_outcome_count s out total_sent exc writes :
  Trace.send_outcome s out total_sent exc writes →
  (total_sent + length writes ≤ length out `max` total_sent)%nat.
Proof.
  intros [(_ & Hfrom & Hcount & _)|(_ & pre & -> & Hfrom & Hcount & _)].
  - apply sends_from_count in Hfrom. lia.
  - apply sends_from_count in Hfrom. rewrite length_app. cbn. lia.
Qed.

Lemma send_loop_unbound out room k total_sent w :
  Client.socket (self w) = None →
  Client.send_loop out room k total_sent w
  = if decide (total_sent < length out)%nat
    then Raise (AttributeError "socket") w
    else Return tt w.
Proof.
  intros Hs. funelim (Client.send_loop out room k total_sent w).
  all: try match goal with
       | Hw : (Client.self_socket ≫= _) _ = _ |- _ =>
           revert Hw; unfold Client.self_socket, Client.sock_send; py_run;
           rewrite Hs; intros Hw;
           first [discriminate Hw | injection Hw as <- <-]
       end.
  - by destruct (decide _).
  - by destruct (decide _).
Qed.

End ClientSendEdges.

(** X10.  [send] on a Client that has no socket yet (no [connect] has run):
    an empty payload returns at once without any call, since the loop body
    is never entered; any other payload raises [AttributeError] at the first
    [self.socket], before anything is written. *)
Theorem send_before_connect (w : world Client.t) (message : Py.message)
    (out : list byte) (room : nat → nat) :
  body message !! "message" = Some (VBytes out) →
  Client.socket (self w) = None →
  Client.send message room w
  = match out with
    | [] => Return tt w
    | _ :: _ => Raise (AttributeError "socket") w
    end.
Proof.
  intros Hb Hs. unfold Client.send. py_unfold. rewrite Hb. cbn.
  rewrite (send_loop_unbound _ _ _ _ _ Hs).
  destruct out; cbn; [done|]. destruct (decide _); [done|lia].
Qed.

(** X11.  [send] makes at most one [socket.send] call per byte of the
    payload, whatever the kernel accepts each time: the loop cannot spin. *)
Theorem send_write_count (w : world Client.t) (message : Py.message)
    (out : list byte) (room : nat → nat) (s : sock) :
  body message !! "message" = Some (VBytes out) →
  Client.socket (self w) = Some s →
  ∃ writes,
    events (world_of (Client.send message room w)) = events w ++ writes
    ∧ (length writes ≤ length out)%nat.
Proof.
  intros Hb Hs.
  assert (Hr : Client.send message room w = Client.send_loop out room 0 0 w).
  { unfold Client.send. py_unfold. by rewrite Hb. }
  rewrite Hr.
  destruct (send_loop_outcome s out room 0 0 w) as (writes & Hev & _ & Hout);
    [lia|done|].
  exists writes. split; [done|].
  apply send_outcome_count in Hout. lia.
Qed.

(** X12.  If the kernel takes at least one byte at every write, [send] on a
    connected Client returns normally and the bytes taken, in order, are the
    payload: the zero-byte write is the only way it fails. *)
Theorem send_completes_with_room (w : world Client.t) (message : Py.message)
    (out : list byte) (room : nat → nat) (s : sock) :
  body message !! "message" = Some (VBytes out) →
  Client.socket (self w) = Some s →
  (∀ k, 0 < room k)%nat →
  ∃ writes,
    Client.send message room w
    = Return tt (World (self w) (events w ++ writes))
    ∧ Trace.taken writes = out.
Proof.
  intros Hb Hs Hroom.
  assert (Hr : Client.send message room w = Client.send_loop out room 0 0 w).
  { unfold Client.send. py_unfold. by rewrite Hb. }
  rewrite Hr.
  pose proof (send_loop_completes s out room 0 0 w Hs Hroom) as Hnone.
  destruct (send_loop_outcome s out room 0 0 w) as (writes & Hev & Hself & Hout);
    [lia|done|].
  exists writes.
  destruct (Client.send_loop out room 0 0 w) as [[] w'|e w']; [|done].
  cbn in *. destruct w' as [a evs]. cbn in *. subst. split; [done|].
  destruct Hout as [(_ & _ & _ & Htaken)|(Hexc & _)]; [done|congruence].
Qed.

(** ** Client: what the poll loop reads and forwards *)

(** Properties of the calls a statement adds that hold of no calls and are
    kept by concatenation carry over to sequences and loops. *)
Section Adds.

Context {A : Type} (P : list event → Prop).
Hypothesis P_nil : P [].
Hypothesis P_app : ∀ new1 new2, P new1 → P new2 → P (new1 ++ new2).

Lemma adds_silent {R} (c : prog A R) :
  (∀ w, events (world_of (c w)) = events w) → Trace.adds P c.
Proof. intros Hc w. exists []. by rewrite app_nil_r. Qed.

Lemma adds_ret {R} (r : R) : Trace.adds P (ret (A:=A) r).
Proof. by apply adds_silent. Qed.

Lemma adds_raise {R} e : Trace.adds P (raise (A:=A) (R:=R) e).
Proof. by apply adds_silent. Qed.

Lemma adds_get : Trace.adds P (get (A:=A)).
Proof. by apply adds_silent. Qed.

Lemma adds_call e : P [e] → Trace.adds P (call (A:=A) e).
Proof. intros He w. by exists [e]. Qed.

Lemma adds_mbind {R R'} (c : prog A R) (k : R → prog A R') :
  Trace.adds P c → (∀ r, Trace.adds P (k r)) → Trace.adds P (c ≫= k).
Proof.
  intros Hc Hk w. destruct (Hc w) as (new1 & Hev1 & HP1).
  unfold mbind, prog_bind, bind. destruct (c w) as [r w1|e w1]; cbn in *.
  - destruct (Hk r w1) as (new2 & Hev2 & HP2).
    exists (new1 ++ new2). split; [by rewrite Hev2, Hev1, app_assoc|].
    by apply P_app.
  - by exists new1.
Qed.

Lemma adds_for_each {T} (loop_body : T → prog A unit) xs :
  (∀ x, Trace.adds P (loop_body x)) → Trace.adds P (for_each loop_body xs).
Proof.
  intros Hbody. induction xs as [|x xs IH]; cbn.
  - apply adds_ret.
  - apply (adds_mbind (loop_body x)); [apply Hbody|]. intros _. apply IH.
Qed.

Lemma adds_resume {T} (loop_body : T → prog A unit) turns :
  (∀ t, Trace.adds P (loop_body t)) → Trace.adds P (resume loop_body turns).
Proof.
  intros Hbody. induction turns as [|t turns IH]; cbn.
  - apply adds_ret.
  - apply (adds_mbind (loop_body t)); [apply Hbody|]. intros _. apply IH.
Qed.

End Adds.

Section Forwarding.

Implicit Types (w : world Client.t) (message : Py.message).

Lemma forwards_nil chunk_size : Trace.forwards chunk_size [].
Proof. split; [done|apply Forall_nil_2]. Qed.

Lemma forwards_app chunk_size new1 new2 :
  Trace.forwards chunk_size new1 → Trace.forwards chunk_size new2 →
  Trace.forwards chunk_size (new1 ++ new2).
Proof.
  intros [Hf1 Hr1] [Hf2 Hr2]. split.
  - unfold Trace.chunks_forwarded, Trace.reads in *.
    by rewrite !omap_app, filter_app, Hf1, Hf2.
  - by apply Forall_app.
Qed.

Lemma forwards_other chunk_size e :
  match e with
  | EvRecv _ _ _ | EvSendMessage _ _ _ _ => False
  | _ => True
  end →
  Trace.forwards chunk_size [e].
Proof.
  intros He. split.
  - by destruct e.
  - apply Forall_singleton. by destruct e.
Qed.

(** Lines 162-170: the read, the test and the message. *)
Lemma forwards_recv_send chunk_size s pending handler id :
  Trace.adds (Trace.forwards chunk_size)
    (chunk ← Client.sock_recv s chunk_size pending;
     if decide (chunk = []) then raise (RuntimeError "socket connection broken")
     else a ← get;
          call (EvSendMessage (handler a) "handle_chunk"
                  {["chunk" := VBytes chunk]} id)).
Proof.
  intros w. unfold Client.sock_recv.
  destruct chunk_size as [|n| | |]; py_run;
    try (exists []; rewrite app_nil_r; split; [done|apply forwards_nil]).
  destruct (decide (0 ≤ n)); py_run;
    [|exists []; rewrite app_nil_r; split; [done|apply forwards_nil]].
  set (chunk := take (Z.to_nat n) pending).
  assert (Hlen : (length chunk ≤ Z.to_nat n)%nat)
    by (subst chunk; rewrite length_take; lia).
  destruct (decide (chunk = [])) as [Hempty|Hchunk]; cbn.
  - exists [EvRecv s n chunk]. split; [done|]. split.
    + cbn. by destruct (decide (chunk ≠ [])).
    + by apply Forall_singleton.
  - exists [EvRecv s n chunk;
            EvSendMessage (handler (self w)) "handle_chunk"
              {["chunk" := VBytes chunk]} id].
    split; [by rewrite <- app_assoc|]. split.
    + cbn. rewrite lookup_singleton_eq. by destruct (decide (chunk ≠ [])).
    + apply Forall_cons. split; [done|]. by apply Forall_singleton.
Qed.

Lemma forwards_self_socket chunk_size :
  Trace.adds (Trace.forwards chunk_size) Client.self_socket.
Proof.
  apply adds_silent; [apply forwards_nil|].
  intros w. unfold Client.self_socket. py_run.
  by destruct (Client.socket (self w)).
Qed.

Lemma forwards_connect_body chunk_size socket_from_fd events :
  Trace.adds (Trace.forwards chunk_size)
    (Client.connect_body chunk_size socket_from_fd events).
Proof.
  pose proof (forwards_nil chunk_size) as Hnil.
  pose proof (forwards_app chunk_size) as Happ.
  unfold Client.connect_body.
  apply adds_mbind; [done|by apply adds_get|]. intros a.
  apply adds_mbind; [done|by apply adds_call, forwards_other|]. intros _.
  apply adds_mbind; [done| |intros _; by apply adds_call, forwards_other].
  apply adds_for_each; [done..|]. intros e.
  unfold Client.handle_event. apply adds_mbind; [done| |].
  { unfold getitem_int. destruct (socket_from_fd !! Client.fd e).
    - by apply adds_ret.
    - by apply adds_raise. }
  intros sock. destruct (decide _); [|by apply adds_ret].
  apply adds_mbind; [done|apply forwards_self_socket|]. intros s.
  destruct (decide _); [|by apply adds_ret].
  apply adds_mbind; [done|apply forwards_self_socket|]. intros s'.
  apply forwards_recv_send.
Qed.

(** The prologue of [connect] when host and port are given, in closed
    form. *)
Lemma connect_setup_run w message klass default_timeout s host port :
  body message !! "host" = Some host →
  body message !! "port" = Some port →
  Client.connect_setup message klass default_timeout s w
  = Return (dict_get (body message) "chunk_size" (VInt 1024),
            ({[ s := s ]} : gmap Z sock))
      (World (Client.set_socket s (self w))
         (events w
          ++ [EvCreateConnection host port
                (dict_get (body message) "timeout" default_timeout) s;
              EvSetblocking s 0;
              EvPollRegister s 27])).
Proof.
  intros Hh Hp.
  unfold Client.connect_setup, try_except_KeyError, Client.self_socket.
  py_run. rewrite Hh. cbn. rewrite Hp. cbn. by rewrite <- !app_assoc.
Qed.

Lemma connect_forwards w message klass default_timeout s turns :
  ∃ new,
    events (world_of (Client.connect message klass default_timeout s turns w))
    = events w ++ new
    ∧ Trace.chunks_forwarded new = filter (λ c, c ≠ []) (Trace.reads new)
    ∧ Trace.reads_within (dict_get (body message) "chunk_size" (VInt 1024)) new.
Proof.
  destruct (body message !! "host") as [host|] eqn:Hh;
    [destruct (body message !! "port") as [port|] eqn:Hp|].
  2,3: rewrite connect_without_host_or_port by auto;
       exists []; rewrite app_nil_r; split; [done|apply forwards_nil].
  unfold Client.connect. unfold mbind at 1, prog_bind, bind.
  rewrite (connect_setup_run _ _ _ _ _ _ _ Hh Hp). cbn [fst snd].
  set (cs := dict_get _ "chunk_size" _). set (w1 := World _ _).
  destruct (adds_resume (Trace.forwards cs) (forwards_nil cs) (forwards_app cs)
              (Client.connect_body cs {[s := s]}) turns
              (forwards_connect_body cs {[s := s]}) w1)
    as (new & Hev & Hnew).
  rewrite Hev. subst w1. cbn. rewrite <- app_assoc. eexists. split; [done|].
  apply (forwards_app cs); [|done].
  apply (forwards_app cs [_] [_; _]); [by apply forwards_other|].
  apply (forwards_app cs [_] [_]); by apply forwards_other.
Qed.

End Forwarding.

(** X13.  In any run of [connect], the chunks carried by the "handle_chunk"
    messages are exactly the non-empty chunks returned by [recv], in the
    order they were read: nothing read is dropped, duplicated or merged.
    Every [recv] asks for the [chunk_size] of the connect message, 1024 if
    it gives none, and no chunk is longer than that. *)
Theorem chunks_forwarded_as_read (w : world Client.t) (message : Py.message)
    (klass : string) (default_timeout : value) (s : sock)
    (turns : list (list Client.ready)) :
  ∃ new,
    events (world_of (Client.connect message klass default_timeout s turns w))
    = events w ++ new
    ∧ Trace.chunks_forwarded new = filter (λ c, c ≠ []) (Trace.reads new)
    ∧ Trace.reads_within
        (match body message !! "chunk_size" with
         | Some n => n
         | None => VInt 1024
         end) new.
Proof. apply connect_forwards. Qed.

Section PollEdges.

Implicit Types (w : world Client.t) (message : Py.message).

(** An event of the socket that reports neither input nor priority input
    is passed over. *)
Lemma handle_event_no_input w chunk_size s e :
  Client.fd e = s →
  Z.land (Client.flag e) (Z.lor Client.POLLIN Client.POLLPRI) = 0 →
  Client.handle_event chunk_size {[s := s]} e w = Return tt w.
Proof.
  intros Hfd Hflag. unfold Client.handle_event. py_unfold.
  rewrite Hfd, lookup_singleton_eq. cbn.
  destruct (decide _); [done|]. by destruct w.
Qed.

Lemma for_each_no_input chunk_size s events : ∀ w,
  Forall (λ e, Client.fd e = s
               ∧ Z.land (Client.flag e) (Z.lor Client.POLLIN Client.POLLPRI) = 0)
    events →
  for_each (Client.handle_event chunk_size {[s := s]}) events w = Return tt w.
Proof.
  induction events as [|e events IH]; intros w Hall; [done|].
  apply Forall_cons in Hall as [[Hfd Hflag] Hall].
  cbn. unfold bind. rewrite handle_event_no_input by done. by apply IH.
Qed.

Lemma resume_no_input chunk_size s turns : ∀ w,
  Forall (Forall (λ e, Client.fd e = s
                       ∧ Z.land (Client.flag e)
                           (Z.lor Client.POLLIN Client.POLLPRI) = 0)) turns →
  resume (Client.connect_body chunk_size {[s := s]}) turns w
  = Return tt
      (World (self w)
         (events w
          ++ concat ((λ _, [EvPoll (Client.poll_timout (self w)); EvWaitOnSelf])
                       <$> turns))).
Proof.
  induction turns as [|t turns IH]; intros w Hall.
  { cbn. rewrite app_nil_r. by destruct w. }
  apply Forall_cons in Hall as [Ht Hall].
  cbn. unfold bind at 1. unfold Client.connect_body. py_unfold. cbn.
  rewrite for_each_no_input by done. cbn.
  rewrite IH by done. cbn. by rewrite <- !app_assoc.
Qed.

(** With a buffer size of zero the read of a readable event is empty. *)
Lemma handle_event_zero w s e :
  Client.socket (self w) = Some s →
  Client.fd e = s →
  Z.land (Client.flag e) (Z.lor Client.POLLIN Client.POLLPRI) ≠ 0 →
  Client.handle_event (VInt 0) {[s := s]} e w
  = Raise (RuntimeError "socket connection broken")
      (World (self w) (events w ++ [EvRecv s 0 []])).
Proof.
  intros Hs Hfd Hflag.
  unfold Client.handle_event, Client.self_socket, Client.sock_recv. py_unfold.
  rewrite Hfd, lookup_singleton_eq. cbn.
  destruct (decide _) as [_|Hno]; [|done]. cbn. rewrite Hs. cbn.
  destruct (decide (s = s)) as [_|Hno]; [|done]. cbn. by rewrite Hs.
Qed.

Lemma connect_body_zero w s e es :
  Client.socket (self w) = Some s →
  Client.fd e = s →
  Z.land (Client.flag e) (Z.lor Client.POLLIN Client.POLLPRI) ≠ 0 →
  Client.connect_body (VInt 0) {[s := s]} (e :: es) w
  = Raise (RuntimeError "socket connection broken")
      (World (self w)
         (events w ++ [EvPoll (Client.poll_timout (self w)); EvRecv s 0 []])).
Proof.
  intros Hs Hfd Hflag. unfold Client.connect_body. py_unfold. cbn.
  unfold bind. rewrite handle_event_zero by done. cbn.
  by rewrite <- app_assoc.
Qed.

End PollEdges.

(** X14.  Poll events that carry neither POLLIN nor POLLPRI (a hangup or an
    error reported alone) are passed over: [connect] does not read, forwards
    nothing and does not end.  It polls and yields once per resumption, so a
    peer that hangs up without readable data never ends the loop. *)
Theorem events_without_input_are_ignored (w : world Client.t)
    (message : Py.message) (klass : string) (default_timeout : value)
    (s : sock) (turns : list (list Client.ready)) (host port : value) :
  body message !! "host" = Some host →
  body message !! "port" = Some port →
  Forall (Forall (λ e, Client.fd e = s
                       ∧ Z.land (Client.flag e)
                           (Z.lor Client.POLLIN Client.POLLPRI) = 0)) turns →
  Client.connect message klass default_timeout s turns w
  = Return tt
      (World (Client.set_socket s (self w))
         (events w
          ++ [EvCreateConnection host port
                (match body message !! "timeout" with
                 | Some timeout => timeout
                 | None => default_timeout
                 end) s;
              EvSetblocking s 0;
              EvPollRegister s 27]
          ++ concat ((λ _, [EvPoll (Client.poll_timout (self w)); EvWaitOnSelf])
                       <$> turns))).
Proof.
  intros Hh Hp Hall. unfold Client.connect. unfold mbind at 1, prog_bind, bind.
  rewrite (connect_setup_run _ _ _ _ _ _ _ Hh Hp). cbn [fst snd].
  rewrite resume_no_input by done. cbn. by rewrite <- app_assoc.
Qed.

(** X15.  With [chunk_size] 0 in the connect message, [recv] is asked for
    zero bytes and returns none, so the first poll event of the socket that
    reports input ends [connect] with the broken-connection error, whatever
    the peer sent and without forwarding anything. *)
Theorem chunk_size_zero_is_fatal (w : world Client.t) (message : Py.message)
    (klass : string) (default_timeout : value) (s : sock)
    (e : Client.ready) (es : list Client.ready)
    (turns : list (list Client.ready)) (host port : value) :
  body message !! "host" = Some host →
  body message !! "port" = Some port →
  body message !! "chunk_size" = Some (VInt 0) →
  Client.fd e = s →
  Z.land (Client.flag e) (Z.lor Client.POLLIN Client.POLLPRI) ≠ 0 →
  Client.connect message klass default_timeout s ((e :: es) :: turns) w
  = Raise (RuntimeError "socket connection broken")
      (World (Client.set_socket s (self w))
         (events w
          ++ [EvCreateConnection host port
                (match body message !! "timeout" with
                 | Some timeout => timeout
                 | None => default_timeout
                 end) s;
              EvSetblocking s 0;
              EvPollRegister s 27;
              EvPoll (Client.poll_timout (self w));
              EvRecv s 0 []])).
Proof.
  intros Hh Hp Hcs Hfd Hflag.
  unfold Client.connect. unfold mbind at 1, prog_bind, bind.
  rewrite (connect_setup_run _ _ _ _ _ _ _ Hh Hp). cbn [fst snd].
  unfold dict_get at 1. rewrite Hcs. cbn [default from_option id].
  cbn [resume]. unfold bind at 1.
  rewrite (connect_body_zero _ s) by done. cbn.
  by rewrite <- !app_assoc.
Qed.

(** ** Client: the socket after connect *)

Section ClientSocket.

Implicit Types (w : world Client.t) (message : Py.message).

Lemma no_close_nil : Trace.no_close [].
Proof. apply Forall_nil_2. Qed.

Lemma no_close_app new1 new2 :
  Trace.no_close new1 → Trace.no_close new2 → Trace.no_close (new1 ++ new2).
Proof. intros. by apply Forall_app. Qed.

Lemma no_close_self_socket : Trace.adds Trace.no_close Client.self_socket.
Proof.
  apply adds_silent; [apply no_close_nil|].
  intros w. unfold Client.self_socket. py_run.
  by destruct (Client.socket (self w)).
Qed.

Lemma no_close_connect_body chunk_size socket_from_fd events :
  Trace.adds Trace.no_close (Client.connect_body chunk_size socket_from_fd events).
Proof.
  pose proof no_close_nil as Hnil. pose proof no_close_app as Happ.
  assert (Hcall : ∀ e, match e with EvClose _ => False | _ => True end →
                       Trace.adds Trace.no_close (call (A:=Client.t) e)).
  { intros e He. apply adds_call. by apply Forall_singleton. }
  unfold Client.connect_body.
  apply adds_mbind; [done|by apply adds_get|]. intros a.
  apply adds_mbind; [done|by apply Hcall|]. intros _.
  apply adds_mbind; [done| |intros _; by apply Hcall].
  apply adds_for_each; [done..|]. intros e.
  unfold Client.handle_event. apply adds_mbind; [done| |].
  { unfold getitem_int. destruct (socket_from_fd !! Client.fd e).
    - by apply adds_ret.
    - by apply adds_raise. }
  intros sock. destruct (decide _); [|by apply adds_ret].
  apply adds_mbind; [done|apply no_close_self_socket|]. intros s.
  destruct (decide _); [|by apply adds_ret].
  apply adds_mbind; [done|apply no_close_self_socket|]. intros s'.
  apply adds_mbind; [done| |].
  { unfold Client.sock_recv. destruct chunk_size; try by apply adds_raise.
    destruct (decide _); [|by apply adds_raise].
    apply adds_mbind; [done|by apply Hcall|]. intros _. by apply adds_ret. }
  intros chunk. destruct (decide _); [by apply adds_raise|].
  apply adds_mbind; [done|by apply adds_get|]. intros a'. by apply Hcall.
Qed.

(** The loop body never assigns an attribute. *)
Lemma handle_event_self chunk_size socket_from_fd e w :
  self (world_of (Client.handle_event chunk_size socket_from_fd e w)) = self w.
Proof.
  unfold Client.handle_event, Client.self_socket, Client.sock_recv. py_unfold.
  destruct (socket_from_fd !! Client.fd e); cbn; [|done].
  destruct (decide _); cbn; [|done].
  destruct (Client.socket (self w)) eqn:Hs; cbn; [|done].
  destruct (decide _); cbn; [|done]. rewrite Hs. cbn.
  destruct chunk_size; cbn; try done.
  destruct (decide _); cbn; [|done].
  by destruct (decide _).
Qed.

Lemma for_each_self chunk_size socket_from_fd events : ∀ w,
  self (world_of (for_each (Client.handle_event chunk_size socket_from_fd)
                    events w))
  = self w.
Proof.
  induction events as [|e events IH]; intros w; [done|].
  cbn. unfold bind.
  pose proof (handle_event_self chunk_size socket_from_fd e w) as He.
  destruct (Client.handle_event _ _ e w) as [[] w1|exc w1]; cbn in *; [|done].
  by rewrite IH.
Qed.

Lemma connect_body_self chunk_size socket_from_fd events w :
  self (world_of (Client.connect_body chunk_size socket_from_fd events w))
  = self w.
Proof.
  unfold Client.connect_body. py_unfold. cbn.
  set (w1 := World _ _).
  pose proof (for_each_self chunk_size socket_from_fd events w1) as Hf.
  destruct (for_each _ events w1) as [[] w2|exc w2]; cbn in *; by rewrite Hf.
Qed.

Lemma resume_connect_body_self chunk_size socket_from_fd turns : ∀ w,
  self (world_of (resume (Client.connect_body chunk_size socket_from_fd)
                    turns w))
  = self w.
Proof.
  induction turns as [|t turns IH]; intros w; [done|].
  cbn. unfold bind.
  pose proof (connect_body_self chunk_size socket_from_fd t w) as Ht.
  destruct (Client.connect_body _ _ t w) as [[] w1|exc w1]; cbn in *; [|done].
  by rewrite IH.
Qed.

End ClientSocket.

(** X16.  Once host and port are given, [connect] stores the new
    connection in [self.socket] and nothing in its loop assigns it again:
    however the run went, and also when it ended with the broken-connection
    error, [self.socket] is the connection and the other attributes are as
    before. *)
Theorem connect_keeps_socket (w : world Client.t) (message : Py.message)
    (klass : string) (default_timeout : value) (s : sock)
    (turns : list (list Client.ready)) (host port : value) :
  body message !! "host" = Some host →
  body message !! "port" = Some port →
  self (world_of (Client.connect message klass default_timeout s turns w))
  = Client.set_socket s (self w).
Proof.
  intros Hh Hp. unfold Client.connect. unfold mbind at 1, prog_bind, bind.
  rewrite (connect_setup_run _ _ _ _ _ _ _ Hh Hp). cbn [fst snd].
  by rewrite resume_connect_body_self.
Qed.

(** X17.  The Client never closes its socket: no run of [connect], however
    it ends, makes a [close] call. *)
Theorem connect_never_closes (w : world Client.t) (message : Py.message)
    (klass : string) (default_timeout : value) (s : sock)
    (turns : list (list Client.ready)) :
  ∃ new,
    events (world_of (Client.connect message klass default_timeout s turns w))
    = events w ++ new
    ∧ Forall (λ e, match e with EvClose _ => False | _ => True end) new.
Proof.
  destruct (body message !! "host") as [host|] eqn:Hh;
    [destruct (body message !! "port") as [port|] eqn:Hp|].
  2,3: rewrite connect_without_host_or_port by auto;
       exists []; rewrite app_nil_r; split; [done|apply Forall_nil_2].
  unfold Client.connect. unfold mbind at 1, prog_bind, bind.
  rewrite (connect_setup_run _ _ _ _ _ _ _ Hh Hp). cbn [fst snd].
  set (cs := dict_get _ "chunk_size" _). set (w1 := World _ _).
  destruct (adds_resume Trace.no_close no_close_nil no_close_app
              (Client.connect_body cs {[s := s]}) turns
              (no_close_connect_body cs {[s := s]}) w1)
    as (new & Hev & Hnew).
  rewrite Hev. subst w1. cbn. rewrite <- app_assoc. eexists. split; [done|].
  apply Forall_app. split; [|done].
  repeat (apply Forall_cons; split; [done|]). apply Forall_nil_2.
Qed.

(** ** The further properties at sample inputs *)

Lemma response_field_required_witness :
  Server.respond (Message "respond" ∅ (Some "id1")) Sample.serving
  = Raise (KeyError (VStr "response")) Sample.serving.
Proof.
  exact (proj1 (response_field_required Sample.serving
                  (Message "respond" ∅ (Some "id1")) "id1" Sample.peer1
                  eq_refl eq_refl eq_refl)).
Defined.

Lemma respond_removes_only_its_entry_witness :
  let w' := world_of (Server.respond (Sample.reply "respond" "id1" Sample.OK)
                        Sample.serving_two) in
  S (size (Server.requests (self w'))) = 2%nat
  ∧ Server.requests (self w') !! "id2" = Some Sample.peer2.
Proof.
  destruct (respond_removes_only_its_entry Sample.serving_two
              (Sample.reply "respond" "id1" Sample.OK) "id1" Sample.peer1
              Sample.OK eq_refl eq_refl eq_refl)
    as (Hsize & Hother & _).
  split; [exact Hsize|].
  refine (eq_trans (Hother "id2" _) eq_refl). by vm_compute.
Defined.

Lemma entry_survives_other_deliveries_witness :
  Server.requests
    (self (Hive.run
             [Hive.Close (Message "close" ∅ (Some "id1"));
              Hive.Send (Sample.reply "send" "id1" Sample.hello);
              Hive.Respond (Sample.reply "respond" "id2" Sample.OK);
              Hive.Resume (Server.Turn true Sample.peer2 "id3")]
             Sample.serving_two))
  !! "id1" = Some Sample.peer1.
Proof.
  apply (entry_survives_other_deliveries Sample.serving_two _ "id1" Sample.peer1).
  - reflexivity.
  - repeat (apply Forall_cons; split; [by vm_compute|]). apply Forall_nil_2.
Defined.

Lemma accept_respond_round_trip_witness :
  ∃ w1 w2,
    Server.listen_body (Server.Turn true Sample.peer2 "id2") Sample.serving
    = Return tt w1
    ∧ Server.respond (Sample.reply "respond" "id2" Sample.OK) w1 = Return tt w2
    ∧ self w2 = self Sample.serving.
Proof.
  destruct (accept_respond_round_trip Sample.serving 3
              (Server.Turn true Sample.peer2 "id2")
              (Sample.reply "respond" "id2" Sample.OK) Sample.OK
              eq_refl eq_refl eq_refl eq_refl eq_refl)
    as (w1 & w2 & Haccept & Hrespond & Hself & _).
  exists w1, w2. split; [exact Haccept|]. split; [exact Hrespond | exact Hself].
Defined.

Lemma accept_loop_keeps_entries_witness :
  ∃ w',
    resume Server.listen_body
      [Server.Turn true Sample.peer2 "id2"; Server.Turn false Sample.peer2 "x"]
      Sample.serving
    = Return tt w'
    ∧ size (Server.requests (self w')) = 2%nat.
Proof.
  destruct (accept_loop_keeps_entries Sample.serving 3
              [Server.Turn true Sample.peer2 "id2";
               Server.Turn false Sample.peer2 "x"])
    as (w' & Hrun & Hsize & _).
  - reflexivity.
  - apply (bool_decide_unpack _). by vm_compute.
  - apply (bool_decide_unpack _). by vm_compute.
  - exists w'. split; [exact Hrun | exact Hsize].
Defined.

Lemma server_routes_nothing_else_witness :
  Server.message_routing (Server.__init__ ∅ VNone) !! "send" = None
  ∧ Server.message_routing (Server.__init__ ∅ VNone) !! "close" = None.
Proof.
  split.
  - refine (eq_trans (server_routes_nothing_else ∅ VNone "send" _ _) eq_refl);
      by vm_compute.
  - refine (eq_trans (server_routes_nothing_else ∅ VNone "close" _ _) eq_refl);
      by vm_compute.
Defined.

Lemma send_before_connect_witness :
  Client.send (Sample.send_message "message" Sample.hello) Sample.room
    Sample.client0
  = Raise (AttributeError "socket") Sample.client0
  ∧ Client.send (Sample.send_message "message" []) Sample.room Sample.client0
    = Return tt Sample.client0.
Proof.
  split.
  - exact (send_before_connect Sample.client0
             (Sample.send_message "message" Sample.hello) Sample.hello
             Sample.room eq_refl eq_refl).
  - exact (send_before_connect Sample.client0
             (Sample.send_message "message" []) [] Sample.room
             eq_refl eq_refl).
Defined.

Lemma send_write_count_witness :
  ∃ writes,
    events (world_of (Client.send (Sample.send_message "message" Sample.hello)
                        Sample.room Sample.connected))
    = writes
    ∧ (length writes ≤ 5)%nat.
Proof.
  destruct (send_write_count Sample.connected
              (Sample.send_message "message" Sample.hello) Sample.hello
              Sample.room 4 eq_refl eq_refl)
    as (writes & Hev & Hlen).
  exists writes. split; [exact Hev | exact Hlen].
Defined.

Lemma send_completes_with_room_witness :
  ∃ writes,
    Client.send (Sample.send_message "message" Sample.hello) Sample.room3
      Sample.connected
    = Return tt (World (self Sample.connected) writes)
    ∧ Trace.taken writes = Sample.hello.
Proof.
  destruct (send_completes_with_room Sample.connected
              (Sample.send_message "message" Sample.hello) Sample.hello
              Sample.room3 4 eq_refl eq_refl)
    as (writes & Hrun & Htaken).
  - intros k. unfold Sample.room3. lia.
  - exists writes. split; [exact Hrun | exact Htaken].
Defined.

Lemma events_without_input_are_ignored_witness :
  Client.connect Sample.connect_message "Client" VNone 4 Sample.polled_hangup
    Sample.client0
  = Return tt
      (World (Client.set_socket 4 (self Sample.client0))
         [EvCreateConnection (VStr "example.org") (VInt 80) VNone 4;
          EvSetblocking 4 0; EvPollRegister 4 27;
          EvPoll (VInt 10); EvWaitOnSelf;
          EvPoll (VInt 10); EvWaitOnSelf]).
Proof.
  refine (eq_trans
            (events_without_input_are_ignored Sample.client0
               Sample.connect_message "Client" VNone 4 Sample.polled_hangup
               (VStr "example.org") (VInt 80) _ _ _)
            _).
  - by vm_compute.
  - by vm_compute.
  - repeat (apply Forall_cons; split;
            [repeat (apply Forall_cons; split; [by vm_compute|]);
             apply Forall_nil_2|]).
    apply Forall_nil_2.
  - by vm_compute.
Defined.

Lemma chunk_size_zero_is_fatal_witness :
  raised (Client.connect Sample.connect_chunk_size_0 "Client" VNone 4
            [[Client.Ready 4 Client.POLLIN Sample.hello "m1"]] Sample.client0)
  = Some (RuntimeError "socket connection broken").
Proof.
  refine (eq_trans
            (f_equal raised
               (chunk_size_zero_is_fatal Sample.client0
                  Sample.connect_chunk_size_0 "Client" VNone 4
                  (Client.Ready 4 Client.POLLIN Sample.hello "m1") [] []
                  (VStr "example.org") (VInt 80) _ _ _ _ _))
            eq_refl); by vm_compute.
Defined.

Lemma connect_keeps_socket_witness :
  Client.socket
    (self (world_of (Client.connect Sample.connect_message "Client" VNone 4
                       Sample.polled Sample.client0)))
  = Some 4.
Proof.
  refine (eq_trans
            (f_equal Client.socket
               (connect_keeps_socket Sample.client0 Sample.connect_message
                  "Client" VNone 4 Sample.polled (VStr "example.org") (VInt 80)
                  _ _))
            eq_refl); by vm_compute.
Defined.
